(** * vibe-tools: provider resolution, fallback selection and command streaming

    A shallow embedding of
    - [src/utils/providerAvailability.ts] (provider registry, availability
      resolver, fallback selector),
    - [src/commands/nix/nixCommand.ts] (the delegating [NixCommand.execute]),
    - [src/commands/ask.ts] ([AskCommand.execute]),
    - [src/commands/nix/utils.ts] ([NixUtils]), [src/commands/nix/assist.ts]
      ([AssistCommand.execute]) and [DevelopCommand.execute],
    together with the properties the specification states about them and
    further properties read off the code.

    Conventions of the embedding
    - provider and command-type identifiers are strings, as in the source;
    - the constant tables [DEFAULT_MODELS] and [PROVIDER_PREFERENCE] are
      finite maps keyed by their own property names; [tbl !! k = None] is the
      JavaScript [undefined] of [tbl[k]];
    - [process.env] is an explicit finite map passed to every function that
      reads it;
    - a function that may [throw] returns [Thrown + A];
    - [console.log] output of the selector is returned as a list of lines;
    - a read [tbl[k]] of a table whose key comes from the caller goes
      through [readProperty]: the table's own keys first, then the members
      every object literal inherits from [Object.prototype] (such as
      [toString]). *)

From Stdlib Require Import ZArith Ascii String.
From stdpp Require Import gmap strings list fin_maps.

Open Scope string_scope.

(** ** Values shared by all modules *)

(** Provider identifiers ([Provider] of [src/types], a union of string
    literals) and command types are strings. *)
Abbreviation Provider := string (only parsing).

(** Thrown values.  [ProviderError] comes from [src/errors] and extends
    [Error]; its second argument is the value that caused it, [JsUndefined]
    when the constructor is called with the message alone. *)
Inductive Thrown : Type :=
  | JsError (message : string)
  | ProviderError (message : string) (details : Thrown)
  | NonError (value : string)
  | JsUndefined.

(** [error instanceof Error] *)
Definition instanceofError (e : Thrown) : bool :=
  match e with NonError _ | JsUndefined => false | _ => true end.

(** [error.message], read on instances of [Error] only. *)
Definition message (e : Thrown) : string :=
  match e with
  | JsError m => m
  | ProviderError m _ => m
  | NonError _ | JsUndefined => EmptyString
  end.

(** JavaScript truthiness of a string: only the empty string is falsy. *)
Definition truthy (s : string) : bool := negb (String.eqb s EmptyString).

(** Truthiness of a possibly [undefined] string. *)
Definition truthy_opt (o : option string) : bool :=
  match o with Some s => truthy s | None => false end.

(** [a || b] on possibly [undefined] strings. *)
Definition or_else (a b : option string) : option string :=
  if truthy_opt a then a else b.

(** The process environment: variable name to value. *)
Abbreviation Env := (gmap string string) (only parsing).

(** [!!process.env.NAME] *)
Definition env_flag (env : Env) (name : string) : bool :=
  truthy_opt (env !! name).

(** ** Property reads *)

(** What an object literal inherits from [Object.prototype]: a function,
    with its [length], or, for [__proto__], the prototype object itself.
    Every member is truthy and none has an [indexOf] or indexed elements. *)
Inductive PrototypeMember : Type :=
  | ProtoFunction (arity : nat)
  | ProtoObject.

Definition OBJECT_PROTOTYPE : list (string * PrototypeMember) :=
  [ ("constructor", ProtoFunction 1);
    ("__defineGetter__", ProtoFunction 2);
    ("__defineSetter__", ProtoFunction 2);
    ("hasOwnProperty", ProtoFunction 1);
    ("__lookupGetter__", ProtoFunction 1);
    ("__lookupSetter__", ProtoFunction 1);
    ("isPrototypeOf", ProtoFunction 1);
    ("propertyIsEnumerable", ProtoFunction 1);
    ("toString", ProtoFunction 0);
    ("valueOf", ProtoFunction 0);
    ("__proto__", ProtoObject);
    ("toLocaleString", ProtoFunction 0) ].

Fixpoint inheritedMember_in (members : list (string * PrototypeMember))
    (key : string) : option PrototypeMember :=
  match members with
  | [] => None
  | (name, member) :: rest =>
      if String.eqb name key then Some member
      else inheritedMember_in rest key
  end.

Definition inheritedMember (key : string) : option PrototypeMember :=
  inheritedMember_in OBJECT_PROTOTYPE key.

(** The value of [tbl[key]] for an object literal [tbl]. *)
Inductive PropertyRead (A : Type) : Type :=
  | Own (value : A)
  | Inherited (member : PrototypeMember)
  | Absent.
Arguments Own {A} value.
Arguments Inherited {A} member.
Arguments Absent {A}.

Definition readProperty {A : Type} (tbl : gmap string A) (key : string)
  : PropertyRead A :=
  match tbl !! key with
  | Some value => Own value
  | None =>
      match inheritedMember key with
      | Some member => Inherited member
      | None => Absent
      end
  end.

(** [member.length] as the bound of a [for] loop: the arity of a function;
    no iteration for the prototype object, whose [length] is [undefined]. *)
Definition memberLength (member : PrototypeMember) : nat :=
  match member with
  | ProtoFunction arity => arity
  | ProtoObject => 0
  end.

(** ** Provider registry and availability resolver *)

Record ProviderInfo : Type := mkProviderInfo {
  provider : Provider;
  available : bool;
  defaultModel : option string
}.

Definition DEFAULT_MODELS : gmap string string :=
  list_to_map
    [ ("perplexity", "sonar-pro");
      ("gemini", "gemini-2.5-pro");
      ("openai", "gpt-4.1");
      ("anthropic", "claude-sonnet-4-20250514");
      ("openrouter", "google/gemini-2.5-pro");
      ("modelbox", "google/gemini-2.5-pro");
      ("xai", "grok-3-latest");
      ("apizh", "gpt-4o-mini");
      ("apizh-coding", "o3");
      ("apizh-chinese", "qwen3-235b-a22b");
      ("apizh-analysis", "claude-sonnet-4-20250514");
      ("apizh-creative", "claude-opus-4-20250514");
      ("apizh-math", "o1");
      ("apizh-web", "gemini-2.5-pro-exp-03-25");
      ("apizh-reasoning", "o1-mini");
      ("apizh-cost", "gpt-4o-mini");
      ("apizh-nix", "gpt-4.1-2025-04-14") ].

(** The closed set of known providers: the keys of [DEFAULT_MODELS]. *)
Definition KNOWN_PROVIDERS : list Provider :=
  [ "perplexity"; "gemini"; "openai"; "anthropic"; "openrouter"; "modelbox";
    "xai"; "apizh"; "apizh-coding"; "apizh-chinese"; "apizh-analysis";
    "apizh-creative"; "apizh-math"; "apizh-web"; "apizh-reasoning";
    "apizh-cost"; "apizh-nix" ].

Definition PROVIDER_PREFERENCE : gmap string (list Provider) :=
  list_to_map
    [ ("web",
       ["apizh-web"; "perplexity"; "gemini"; "modelbox"; "openrouter"; "apizh"]);
      ("repo",
       ["apizh-analysis"; "gemini"; "modelbox"; "openrouter"; "openai";
        "perplexity"; "anthropic"; "xai"; "apizh"]);
      ("plan_file",
       ["apizh-cost"; "gemini"; "modelbox"; "openrouter"; "openai";
        "perplexity"; "anthropic"; "xai"; "apizh"]);
      ("plan_thinking",
       ["apizh-reasoning"; "openai"; "modelbox"; "openrouter"; "gemini";
        "anthropic"; "perplexity"; "xai"; "apizh"]);
      ("doc",
       ["apizh-analysis"; "gemini"; "modelbox"; "openrouter"; "openai";
        "perplexity"; "anthropic"; "xai"; "apizh"]);
      ("ask",
       ["apizh-cost"; "openai"; "modelbox"; "openrouter"; "gemini";
        "anthropic"; "perplexity"; "apizh"]);
      ("browser",
       ["apizh-analysis"; "anthropic"; "openai"; "modelbox"; "openrouter";
        "gemini"; "perplexity"; "apizh"]) ].

(** [getDefaultModel] is a bare property read: it has no [throw]. *)
Definition getDefaultModel (provider : Provider)
  : Thrown + PropertyRead string :=
  inr (readProperty DEFAULT_MODELS provider).

Definition getAllProviders (env : Env) : list ProviderInfo :=
  let isApizhAvailable := env_flag env "APIZH_API_KEY" in
  [ mkProviderInfo "perplexity" (env_flag env "PERPLEXITY_API_KEY")
      (DEFAULT_MODELS !! "perplexity");
    mkProviderInfo "gemini" (env_flag env "GEMINI_API_KEY")
      (DEFAULT_MODELS !! "gemini");
    mkProviderInfo "openai" (env_flag env "OPENAI_API_KEY")
      (DEFAULT_MODELS !! "openai");
    mkProviderInfo "anthropic" (env_flag env "ANTHROPIC_API_KEY")
      (DEFAULT_MODELS !! "anthropic");
    mkProviderInfo "openrouter" (env_flag env "OPENROUTER_API_KEY")
      (DEFAULT_MODELS !! "openrouter");
    mkProviderInfo "modelbox" (env_flag env "MODELBOX_API_KEY")
      (DEFAULT_MODELS !! "modelbox");
    mkProviderInfo "xai" (env_flag env "XAI_API_KEY")
      (DEFAULT_MODELS !! "xai");
    mkProviderInfo "apizh" isApizhAvailable (DEFAULT_MODELS !! "apizh");
    (* APIZH specialized variants *)
    mkProviderInfo "apizh-coding" isApizhAvailable
      (DEFAULT_MODELS !! "apizh-coding");
    mkProviderInfo "apizh-chinese" isApizhAvailable
      (DEFAULT_MODELS !! "apizh-chinese");
    mkProviderInfo "apizh-analysis" isApizhAvailable
      (DEFAULT_MODELS !! "apizh-analysis");
    mkProviderInfo "apizh-creative" isApizhAvailable
      (DEFAULT_MODELS !! "apizh-creative");
    mkProviderInfo "apizh-math" isApizhAvailable
      (DEFAULT_MODELS !! "apizh-math");
    mkProviderInfo "apizh-web" isApizhAvailable
      (DEFAULT_MODELS !! "apizh-web");
    mkProviderInfo "apizh-reasoning" isApizhAvailable
      (DEFAULT_MODELS !! "apizh-reasoning");
    mkProviderInfo "apizh-cost" isApizhAvailable
      (DEFAULT_MODELS !! "apizh-cost");
    mkProviderInfo "apizh-nix" isApizhAvailable
      (DEFAULT_MODELS !! "apizh-nix") ].

(** [infos.find((p) => p.provider === id)] *)
Definition findProvider (infos : list ProviderInfo) (id : string)
  : option ProviderInfo :=
  List.find (fun p => String.eqb (provider p) id) infos.

(** [!!info?.available] *)
Definition info_available (info : option ProviderInfo) : bool :=
  match info with Some p => available p | None => false end.

Definition getProviderInfo (env : Env) (id : string) : option ProviderInfo :=
  findProvider (getAllProviders env) id.

Definition isProviderAvailable (env : Env) (id : string) : bool :=
  info_available (getProviderInfo env id).

Definition getAvailableProviders (env : Env) : list ProviderInfo :=
  List.filter (fun p => available p) (getAllProviders env).

(** ** Fallback selector *)

(** [list.indexOf(x)]: index of the first occurrence, [-1] when absent. *)
Fixpoint indexOf (l : list Provider) (x : Provider) : Z :=
  match l with
  | [] => -1
  | y :: l' =>
      if String.eqb y x then 0
      else let r := indexOf l' x in if (r <? 0)%Z then -1 else (r + 1)%Z
  end.

(** The body of the [for] loop of [getNextAvailableProvider], run over the
    candidates [preferenceOrder[startIndex..]]: the first available candidate
    is returned; each skipped candidate leaves one [console.log] line. *)
Fixpoint scanProviders (availableProviders : list ProviderInfo)
    (candidates : list Provider) : list string * option Provider :=
  match candidates with
  | [] => ([], None)
  | candidate :: rest =>
      let providerInfo := findProvider availableProviders candidate in
      if info_available providerInfo then ([], Some candidate)
      else
        let '(lines, r) := scanProviders availableProviders rest in
        (("Provider " ++ candidate ++ " is not available") :: lines, r)
  end.

(** [currentProvider ? preferenceOrder.indexOf(currentProvider) + 1 : 0] *)
Definition startIndex (preferenceOrder : list Provider)
    (currentProvider : option Provider) : Z :=
  if truthy_opt currentProvider
  then (indexOf preferenceOrder (default EmptyString currentProvider) + 1)%Z
  else 0%Z.

Definition getNextAvailableProvider (env : Env) (commandType : string)
    (currentProvider : option Provider)
  : list string * (Thrown + option Provider) :=
  match readProperty PROVIDER_PREFERENCE commandType with
  | Absent => ([], inl (JsError ("Unknown command type: " ++ commandType)))
  | Own preferenceOrder =>
      let availableProviders := getAllProviders env in
      let i := startIndex preferenceOrder currentProvider in
      let '(lines, r) :=
        scanProviders availableProviders (drop (Z.to_nat i) preferenceOrder) in
      (lines, inr r)
  | Inherited member =>
      (* an inherited member is truthy: the guard [!preferenceOrder] lets
         it through *)
      if truthy_opt currentProvider then
        (* [preferenceOrder.indexOf] is [undefined]: a TypeError *)
        ([], inl (JsError "preferenceOrder.indexOf is not a function"))
      else
        (* [preferenceOrder[i]] is [undefined] for every [i] below
           [preferenceOrder.length]: each one is logged and skipped *)
        (replicate (memberLength member)
           "Provider undefined is not available",
         inr None)
  end.

(** The value returned (or thrown), without the console output. *)
Definition selectNext (env : Env) (commandType : string)
    (currentProvider : option Provider) : Thrown + option Provider :=
  snd (getNextAvailableProvider env commandType currentProvider).

(** ** Command execution contract *)

(** What a command receives from the CLI surface ([CommandOptions] of
    [src/types]); a field that is [undefined] is [None]. *)
Record TelemetryData : Type := mkTelemetryData {
  t_promptTokens : option nat;
  t_completionTokens : option nat;
  t_provider : string;
  t_model : string
}.

Record CommandOptions : Type := mkCommandOptions {
  opt_provider : option string;
  opt_model : option string;
  opt_maxTokens : option nat;
  opt_debug : option bool;
  opt_withDoc : option (list string);
  opt_reasoningEffort : option string;
  opt_webSearch : option bool;
  (* the caller's [trackTelemetry] callback, when supplied: called with
     the data, it returns ([None]) or throws a value *)
  opt_trackTelemetry : option (TelemetryData → option Thrown)
}.

(** An [async *execute] body, once the operations it awaits have settled:
    the chunks it yields, in program order, then a normal completion or a
    thrown value.  [Tell] is a call of the caller's telemetry callback
    made while the body runs; it is not a chunk.  Console output of the
    command bodies is left out. *)
Inductive Gen : Type :=
  | Yield (chunk : string) (rest : Gen)
  | Tell (data : TelemetryData) (rest : Gen)
  | Return
  | Throw (e : Thrown).

(** What one [await gen.next()] settles to. *)
Inductive IteratorResult : Type :=
  | Value (chunk : string)
  | Done
  | Rejected (e : Thrown).

(** One [next()]: the body runs up to its next [yield], its end or its
    [throw]; a generator that has thrown or returned is finished. *)
Fixpoint next (g : Gen) : IteratorResult * Gen :=
  match g with
  | Yield chunk rest => (Value chunk, rest)
  | Tell _ rest => next rest
  | Return => (Done, Return)
  | Throw e => (Rejected e, Return)
  end.

(** A caller that requests [n] results, whatever they are. *)
Fixpoint pull (n : nat) (g : Gen) : list IteratorResult :=
  match n with
  | 0 => []
  | S n' => let '(r, g') := next g in r :: pull n' g'
  end.

(** The chunks a body yields when driven to its end, in program order. *)
Fixpoint chunks (g : Gen) : list string :=
  match g with
  | Yield chunk rest => chunk :: chunks rest
  | Tell _ rest => chunks rest
  | Return | Throw _ => []
  end.

(** How a body ends: [Done] or [Rejected e]. *)
Fixpoint terminal (g : Gen) : IteratorResult :=
  match g with
  | Yield _ rest | Tell _ rest => terminal rest
  | Return => Done
  | Throw e => Rejected e
  end.

(** [for await (const chunk of gen) { ... }]: the caller requests results
    until the first one that is not a chunk and sees them in that order. *)
Fixpoint forAwait (fuel : nat) (g : Gen) : list IteratorResult :=
  match fuel with
  | 0 => []
  | S fuel' =>
      match next g with
      | (Value chunk, g') => Value chunk :: forAwait fuel' g'
      | (r, _) => [r]
      end
  end.

(** [yield* inner; k] *)
Fixpoint yieldStar (inner : Gen) (k : Gen) : Gen :=
  match inner with
  | Yield chunk rest => Yield chunk (yieldStar rest k)
  | Tell d rest => Tell d (yieldStar rest k)
  | Return => k
  | Throw e => Throw e
  end.

(** [try { body } catch (error) { handler error }] *)
Fixpoint tryCatch (body : Gen) (handler : Thrown → Gen) : Gen :=
  match body with
  | Yield chunk rest => Yield chunk (tryCatch rest handler)
  | Tell d rest => Tell d (tryCatch rest handler)
  | Return => Return
  | Throw e => handler e
  end.

(** ** [NixCommand] *)

Module NixCommand.
Section Execute.

(** [String.prototype.trim] *)
Variable trim : string → string.
(** The text returned by [getHelpMessage()]. *)
Variable getHelpMessage : string.
(** [this.assistCommand.execute] *)
Variable assistCommand_execute : string → CommandOptions → Gen.

Definition execute (query : string) (options : CommandOptions) : Gen :=
  (* loadEnv() *)
  if negb (truthy (trim query)) then
    Yield getHelpMessage Return
  else
    tryCatch
      (yieldStar (assistCommand_execute query options) Return)
      (fun error => (* console.error(..., error) *) Throw error).

End Execute.
End NixCommand.

(** ** [AskCommand] *)

(** The line feed of a JavaScript ['\n']. *)
Definition NL : string := String (Ascii.ascii_of_nat 10) EmptyString.

(** [String.prototype.toUpperCase] on the ASCII letters. *)
Definition upper_ascii (c : ascii) : ascii :=
  let n := Ascii.nat_of_ascii c in
  if (97 <=? n)%nat && (n <=? 122)%nat then Ascii.ascii_of_nat (n - 32) else c.

Fixpoint toUpperCase (s : string) : string :=
  match s with
  | EmptyString => EmptyString
  | String c r => String (upper_ascii c) (toUpperCase r)
  end.

(** [s.replace(/`/g, '\\\\`')]: each backtick becomes two backslashes and a
    backtick. *)
Fixpoint escapeBackticks (s : string) : string :=
  match s with
  | EmptyString => EmptyString
  | String c r =>
      if Ascii.eqb c "`"%char then "\\`" ++ escapeBackticks r
      else String c (escapeBackticks r)
  end.

(** [n || d] on a possibly [undefined] number: [0] is falsy. *)
Definition num_or (n : option nat) (d : nat) : nat :=
  match n with Some (S k) => S k | _ => d end.

(** [ModelOptions] of [src/providers/base]. *)
Record ModelOptions : Type := mkModelOptions {
  model : string;
  maxTokens : nat;
  debug : option bool;
  systemPrompt : option string;
  reasoningEffort : option string;
  webSearch : option bool
}.

Record TokenUsage : Type := mkTokenUsage {
  promptTokens : nat;
  completionTokens : nat
}.

(** A provider client as [AskCommand] uses it.  Each awaited call is given
    by what it settles to; [tokenUsage] is the field read after the call. *)
Record ProviderClient : Type := mkProviderClient {
  getModel : ModelOptions → Thrown + option string;
  executePrompt : string → ModelOptions → Thrown + string;
  tokenUsage : option TokenUsage
}.

Module AskCommand.

Definition apizhModels : gmap string string :=
  list_to_map
    [ ("apizh-coding", "claude-opus-4-20250514-thinking");
      ("apizh-chinese", "qwen3-235b-a22b");
      ("apizh-analysis", "claude-sonnet-4-20250514");
      ("apizh-creative", "claude-opus-4-20250514");
      ("apizh-math", "o1");
      ("apizh-web", "gemini-2.5-pro-exp-03-25");
      ("apizh-reasoning", "o1-mini");
      ("apizh-cost", "gpt-4o-mini") ].

Definition otherProviderModels : gmap string string :=
  list_to_map
    [ ("openai", "gpt-4.1");
      ("anthropic", "claude-sonnet-4-20250514");
      ("gemini", "gemini-2.5-pro");
      ("perplexity", "sonar-pro");
      ("openrouter", "openai/gpt-4.1");
      ("modelbox", "openai/gpt-4.1");
      ("xai", "grok-3-latest");
      ("apizh", "gpt-4o-mini") ].

(** [availableProviders.map((p) => `- ${p.provider}`).join('\n')] *)
Definition providerLines (availableProviders : list ProviderInfo) : string :=
  String.concat NL (map (fun p => "- " ++ provider p) availableProviders).

Section Execute.

(** The process environment after the constructor's [loadEnv()]. *)
Variable env : Env.
(** [this.config.apizh?.provider] and [this.config.reasoningEffort] *)
Variable config_apizh_provider : option string.
Variable config_reasoningEffort : option string.
(** [defaultMaxTokens] of [src/config] *)
Variable defaultMaxTokens : nat.
(** [createProvider] of [src/providers/base] *)
Variable createProvider : string → Thrown + ProviderClient.
(** [fetchDocContent(url, debug)] of [src/utils/fetch-doc], settled *)
Variable fetchDocContent : string → bool → Thrown + string.
(** [String.prototype.trim] *)
Variable trim : string → string.

(** [options?.provider || this.config.apizh?.provider || 'apizh'] *)
Definition providerName (options : option CommandOptions) : string :=
  default "apizh"
    (or_else (or_else (options ≫= opt_provider) config_apizh_provider)
             (Some "apizh")).

(** Lines 48-108: the model given, or the one chosen for the provider. *)
Definition resolveModel (providerName : string)
    (options : option CommandOptions) : Thrown + string :=
  let model :=
    default EmptyString (or_else (options ≫= opt_model) (Some EmptyString)) in
  if truthy model then inr model
  else if String.eqb providerName "apizh" then
    match createProvider providerName with
    | inl e => inl e
    | inr tempProvider =>
        let tempOptions :=
          mkModelOptions EmptyString
            (num_or (options ≫= opt_maxTokens) defaultMaxTokens)
            (options ≫= opt_debug) None None None in
        match getModel tempProvider tempOptions with
        | inl e => inl e
        | inr m => inr (default "gpt-4o-mini" (or_else m (Some "gpt-4o-mini")))
        end
    end
  else if String.prefix "apizh-" providerName then
    inr (default "gpt-4o-mini"
           (or_else (apizhModels !! providerName) (Some "gpt-4o-mini")))
  else
    inr (default "gpt-4.1"
           (or_else (otherProviderModels !! providerName) (Some "gpt-4.1"))).

(** The body of the [for (const docUrl of options.withDoc)] loop. *)
Fixpoint fetchDocs (debug : bool) (urls : list string) : list string :=
  match urls with
  | [] => []
  | docUrl :: rest =>
      if negb (truthy (trim docUrl)) then fetchDocs debug rest
      else
        match fetchDocContent docUrl debug with
        | inr cleanedText =>
            if truthy cleanedText
               && (0 <? String.length (trim cleanedText))%nat
            then cleanedText :: fetchDocs debug rest
            else fetchDocs debug rest
        | inl _ => fetchDocs debug rest
        end
  end.

(** Lines 114-163: the query sent to the provider. *)
Definition finalQuery (query : string) (options : option CommandOptions)
  : string :=
  match options ≫= opt_withDoc with
  | Some ((_ :: _) as withDoc) =>
      let docContents :=
        fetchDocs (default false (options ≫= opt_debug)) withDoc in
      if (0 <? length docContents)%nat then
        let docContent := String.concat "\n\n---\n\n" docContents in
        let escapedDocContent := escapeBackticks docContent in
        "Document Content:\n```\n" ++ escapedDocContent
          ++ "\n```\n\nQuestion:\n" ++ query
      else query
  | _ => query
  end.

Definition modelOptions (model : string) (options : option CommandOptions)
  : ModelOptions :=
  mkModelOptions model
    (num_or (options ≫= opt_maxTokens) defaultMaxTokens)
    (options ≫= opt_debug)
    (Some "You are a helpful assistant. Answer the following question directly and concisely.")
    (match options ≫= opt_reasoningEffort with
     | Some r => Some r
     | None => config_reasoningEffort
     end)
    (options ≫= opt_webSearch).

(** What the [catch] of lines 202-207 throws for a caught [error]. *)
Definition providerErrorOf (error : Thrown) : Thrown :=
  ProviderError
    (if instanceofError error then message error
     else "Unknown error during ask command execution")
    error.

(** The argument of [trackTelemetry], lines 182-200. *)
Definition telemetryData (provider : ProviderClient)
    (providerName model : string) : TelemetryData :=
  match tokenUsage provider with
  | Some u =>
      mkTelemetryData (Some (promptTokens u)) (Some (completionTokens u))
        providerName model
  | None => mkTelemetryData None None providerName model
  end.

(** [options?.trackTelemetry?.(data)], inside the [try]: the callback is
    called; a value it throws is caught by the [catch] like an error of
    the provider call. *)
Definition trackTelemetry (options : option CommandOptions)
    (data : TelemetryData) (k : Gen) : Gen :=
  match options ≫= opt_trackTelemetry with
  | Some sink =>
      Tell data
        (match sink data with
         | Some error => Throw (providerErrorOf error)
         | None => k
         end)
  | None => k
  end.

Definition execute (query : string) (options : option CommandOptions) : Gen :=
  let availableProviders :=
    List.filter (fun p => available p) (getAllProviders env) in
  if (length availableProviders =? 0)%nat then
    Throw (ProviderError
      "No AI providers are currently available. Please run 'vibe-tools install' to set up your API keys."
      JsUndefined)
  else
  let providerName := providerName options in
  match findProvider (getAllProviders env) providerName with
  | None =>
      Throw (ProviderError
        ("Invalid provider: " ++ providerName ++ "." ++ NL
           ++ "Available providers:" ++ NL
           ++ providerLines availableProviders)
        JsUndefined)
  | Some providerInfo =>
  if negb (available providerInfo) then
    Throw (ProviderError
      ("The " ++ providerName
         ++ " provider is not available. Please set "
         ++ toUpperCase providerName ++ "_API_KEY in your environment." ++ NL
         ++ "Currently available providers:" ++ NL
         ++ providerLines availableProviders)
      JsUndefined)
  else
  match resolveModel providerName options with
  | inl e => Throw e
  | inr model =>
  match createProvider providerName with
  | inl e => Throw e
  | inr provider =>
  match executePrompt provider (finalQuery query options)
          (modelOptions model options) with
  | inl error => Throw (providerErrorOf error)
  | inr answer =>
      let data := telemetryData provider providerName model in
      trackTelemetry options data (Yield answer Return)
  end end end end.

End Execute.
End AskCommand.

(** ** [NixUtils], [AssistCommand] and [DevelopCommand] *)

(** The double quote. *)
Definition DQ : string := String (Ascii.ascii_of_nat 34) EmptyString.

(** A boolean inside a template literal. *)
Definition boolString (b : bool) : string := if b then "true" else "false".

(** [error instanceof Error ? error.message : String(error)]; a [NonError]
    carries the string the thrown value converts to. *)
Definition errorText (e : Thrown) : string :=
  if instanceofError e then message e
  else match e with NonError value => value | _ => "undefined" end.

(** What [execAsync] resolves to. *)
Record ExecResult : Type := mkExecResult {
  stdout : string;
  stderr : string
}.

Record NixEnvironmentInfo : Type := mkNixEnvironmentInfo {
  hasNix : bool;
  hasFlake : bool;
  nixVersion : option string;
  projectType : option string;
  error : option string;
  hasGit : option bool;
  flakeTracked : option bool;
  lockTracked : option bool
}.

(** The result of [detectGitStatus]. *)
Record GitStatus : Type := mkGitStatus {
  gs_hasGit : bool;
  gs_flakeTracked : bool;
  gs_lockTracked : bool
}.

(** Truthiness of a possibly [undefined] boolean. *)
Definition truthy_bool (b : option bool) : bool := default false b.

Module NixUtils.

Definition checkFiles : list (string * string) :=
  [ ("package.json", "Node.js");
    ("requirements.txt", "Python");
    ("pyproject.toml", "Python");
    ("Cargo.toml", "Rust");
    ("go.mod", "Go");
    ("pom.xml", "Java");
    ("build.gradle", "Java");
    ("Gemfile", "Ruby");
    ("composer.json", "PHP") ].

Definition getHelpMessage (envInfo : NixEnvironmentInfo) : string :=
  if negb (hasNix envInfo) then
    "❌ Nix 未安装或不在 PATH 中
      
安装 Nix (推荐使用 Determinate Systems installer):
  curl --proto '=https' --tlsv1.2 -sSf -L https://install.determinate.systems/nix | sh -s -- install

或者使用官方安装器:
  sh <(curl -L https://nixos.org/nix/install) --daemon

安装完成后重新启动终端，然后再试一次。"
  else if negb (hasFlake envInfo) then
    "📄 当前目录没有 flake.nix 文件

使用以下命令生成一个:
  vibe-tools nix init

或者手动创建一个基础的 flake.nix 文件。"
  else if truthy_bool (hasGit envInfo) && hasFlake envInfo
          && negb (truthy_bool (flakeTracked envInfo)) then
    "⚠️  flake.nix 文件未被 git 跟踪
      
💡 重要提示: Nix flakes 只会处理已被 git 跟踪的文件！

请运行以下命令将 flake 文件添加到 git:
  git add flake.nix
  git add flake.lock  # 如果存在的话

然后再尝试 nix 命令。"
  else EmptyString.

Section Environment.

(** [String.prototype.trim] and [path.join] *)
Variable trim : string → string.
Variable join : string → string → string.
(** [execAsync(command, { cwd })], [fs.access(path)] and
    [fs.readFile(path, 'utf-8')], each given by what it settles to *)
Variable execAsync : string → option string → Thrown + ExecResult.
Variable fs_access : string → Thrown + unit.
Variable fs_readFile : string → Thrown + string.

(** The [for (const { file, type } of checkFiles)] loop. *)
Fixpoint firstAccessible (projectPath : string)
    (files : list (string * string)) : string :=
  match files with
  | [] => "Generic"
  | (file, type) :: rest =>
      match fs_access (join projectPath file) with
      | inr _ => type
      | inl _ => firstAccessible projectPath rest
      end
  end.

Definition detectProjectType (projectPath : string) : string :=
  firstAccessible projectPath checkFiles.

Definition detectGitStatus (projectPath : string) : GitStatus :=
  match execAsync "git rev-parse --git-dir" (Some projectPath) with
  | inr _ =>
      let flakeTracked :=
        match execAsync "git ls-files flake.nix" (Some projectPath) with
        | inr flakeStatus =>
            negb (String.eqb (trim (stdout flakeStatus)) EmptyString)
        | inl _ => false
        end in
      let lockTracked :=
        match execAsync "git ls-files flake.lock" (Some projectPath) with
        | inr lockStatus =>
            negb (String.eqb (trim (stdout lockStatus)) EmptyString)
        | inl _ => false
        end in
      mkGitStatus true flakeTracked lockTracked
  | inl _ => mkGitStatus false false false
  end.

Definition detectEnvironment (projectPath : string) : NixEnvironmentInfo :=
  let '(hasNix, nixVersion) :=
    match execAsync "which nix" None with
    | inr nixCheck =>
        if truthy (trim (stdout nixCheck)) then
          (true,
           match execAsync "nix --version" None with
           | inr versionResult => Some (trim (stdout versionResult))
           | inl _ => None
           end)
        else (false, None)
    | inl _ => (false, None)
    end in
  match fs_access (join projectPath "flake.nix") with
  | inr _ =>
      let projectType := detectProjectType projectPath in
      let gitInfo := detectGitStatus projectPath in
      mkNixEnvironmentInfo hasNix true nixVersion (Some projectType) None
        (Some (gs_hasGit gitInfo)) (Some (gs_flakeTracked gitInfo))
        (Some (gs_lockTracked gitInfo))
  | inl _ =>
      mkNixEnvironmentInfo hasNix false nixVersion None None None None None
  end.

Definition executeNixCommand (command : string) (args : list string)
  : Thrown + ExecResult :=
  let fullCommand :=
    trim ("nix " ++ command ++ " " ++ String.concat " " args) in
  execAsync fullCommand None.

Definition readFlakeFile (projectPath : string) : Thrown + string :=
  fs_readFile (join projectPath "flake.nix").

End Environment.
End NixUtils.

(** [config.nix] of the loaded configuration. *)
Record NixConfig : Type := mkNixConfig {
  nix_provider : option string;
  nix_model : option string;
  nix_maxTokens : option nat
}.

Module AssistCommand.

Definition usage : string :=
  "💬 Nix AI 助手

请描述您需要帮助的 Nix 相关任务，例如：
- " ++ DQ ++ "帮我修复构建错误" ++ DQ ++ "
- " ++ DQ ++ "为 React 项目优化开发环境" ++ DQ ++ "
- " ++ DQ ++ "添加 Python 和 PostgreSQL 支持" ++ DQ ++ "
- " ++ DQ ++ "解决依赖冲突问题" ++ DQ ++ "
- " ++ DQ ++ "设置 CI/CD 配置" ++ DQ ++ "

用法: vibe-tools nix assist " ++ DQ ++ "您的问题或任务描述" ++ DQ.

Definition footer : string :=
  "✨ 需要更多帮助？
- 使用 vibe-tools nix assist " ++ DQ ++ "其他问题" ++ DQ ++ " 继续咨询
- 使用 vibe-tools nix troubleshoot 进行问题诊断  
- 使用 vibe-tools nix analyze 分析当前配置".

Section Execute.

Variable trim : string → string.
Variable join : string → string → string.
Variable execAsync : string → option string → Thrown + ExecResult.
Variable fs_access : string → Thrown + unit.
Variable fs_readFile : string → Thrown + string.
(** [process.cwd()] *)
Variable cwd : string.
(** [loadConfig()]: the [nix] section of the configuration, or a throw *)
Variable loadConfig : Thrown + option NixConfig.
Variable createProvider : string → Thrown + ProviderClient.

Definition statusLine (envInfo : NixEnvironmentInfo) : string :=
  "📋 环境状态: Nix " ++ (if hasNix envInfo then "✅" else "❌") ++ " | Flake " ++ (if hasFlake envInfo then "✅" else "❌") ++ " | 项目: " ++ default "未知" (or_else (projectType envInfo) (Some "未知")) ++ NL.

(** Lines 29-53: the context given to the model. *)
Definition context (envInfo : NixEnvironmentInfo) : string :=
  let context :=
    "环境信息：
- Nix 已安装: " ++ boolString (hasNix envInfo) ++ "
- Nix 版本: " ++ default "未知" (or_else (nixVersion envInfo) (Some "未知")) ++ "
- 有 flake.nix: " ++ boolString (hasFlake envInfo) ++ "
- 项目类型: " ++ default "未检测到" (or_else (projectType envInfo) (Some "未检测到")) ++ "
- 工作目录: " ++ cwd in
  let context :=
    if hasFlake envInfo then
      match NixUtils.readFlakeFile join fs_readFile cwd with
      | inr flakeContent =>
          context ++ NL ++ NL ++ "当前 flake.nix 内容:" ++ NL ++ "```nix" ++ NL ++ flakeContent ++ NL ++ "```"
      | inl _ => context ++ NL ++ NL ++ "注意：无法读取 flake.nix 文件"
      end
    else context in
  match execAsync "ls -la" None with
  | inr lsResult => context ++ NL ++ NL ++ "当前目录文件:" ++ NL ++ stdout lsResult
  | inl _ => context
  end.

Definition prompt (query : string) (context : string) : string :=
  "作为资深 Nix 专家和开发顾问，请帮助用户解决以下问题：

**用户请求：** " ++ query ++ "

**当前环境：**
" ++ context ++ "

请提供：
1. **问题分析**：理解用户的需求和当前状况
2. **解决方案**：提供具体、可执行的步骤
3. **代码示例**：如果需要修改配置，提供完整的代码
4. **执行命令**：列出需要运行的具体命令
5. **验证方法**：如何确认解决方案生效
6. **后续建议**：相关的最佳实践和优化建议

要求：
- 用中文回答
- 提供具体可执行的解决方案
- 如果需要修改文件，提供完整的文件内容
- 优先使用最新的 Nix Flakes 最佳实践
- 考虑项目的实际需求和环境".

(** [options.provider || config.nix?.provider || 'apizh'] *)
Definition providerName (options : CommandOptions)
    (config : option NixConfig) : string :=
  default "apizh"
    (or_else (or_else (opt_provider options) (config ≫= nix_provider))
             (Some "apizh")).

(** [options.model || config.nix?.model || 'gpt-4.1-2025-04-14'] *)
Definition modelName (options : CommandOptions)
    (config : option NixConfig) : string :=
  default "gpt-4.1-2025-04-14"
    (or_else (or_else (opt_model options) (config ≫= nix_model))
             (Some "gpt-4.1-2025-04-14")).

(** [options.maxTokens || config.nix?.maxTokens || 6000] *)
#[warnings="-abstract-large-number"]
Definition maxTokensOf (options : CommandOptions)
    (config : option NixConfig) : nat :=
  num_or (opt_maxTokens options) (num_or (config ≫= nix_maxTokens) 6000).

(** [{ model, maxTokens, debug: options.debug || false }] *)
Definition modelOptions (options : CommandOptions)
    (config : option NixConfig) : ModelOptions :=
  mkModelOptions (modelName options config) (maxTokensOf options config)
    (Some (default false (opt_debug options))) None None None.

Definition startLine : string :=
  "🤖 Nix AI 助手启动中..." ++ NL.

Definition modelLine (model : string) : string :=
  "🧠 使用模型: " ++ model ++ NL.

Definition replyChunk (response : string) : string :=
  "💡 AI 助手回复:" ++ NL ++ NL ++ response ++ NL ++ NL.

(** The chunk yielded by the [catch]. *)
Definition failureChunk (error : Thrown) : string :=
  "❌ AI 助手失败: " ++ errorText error.

Definition execute (query : string) (options : CommandOptions) : Gen :=
  tryCatch
    (if negb (truthy (trim query)) then
       Yield usage Return
     else
       let envInfo :=
         NixUtils.detectEnvironment trim join execAsync fs_access cwd in
       Yield startLine
      (Yield (statusLine envInfo)
         (let prompt := prompt query (context envInfo) in
          match loadConfig with
          | inl e => Throw e
          | inr config =>
          match createProvider (providerName options config) with
          | inl e => Throw e
          | inr provider =>
          let model := modelName options config in
          Yield (modelLine model)
            (match executePrompt provider prompt
                     (modelOptions options config) with
             | inl e => Throw e
             | inr response =>
                 Yield (replyChunk response) (Yield footer Return)
             end)
          end end)))
    (fun error =>
       Yield (failureChunk error)
         (* if (options.debug) console.error(...) *) Return).

End Execute.
End AssistCommand.

Module DevelopCommand.
Section Execute.

Variable trim : string → string.
Variable join : string → string → string.
Variable execAsync : string → option string → Thrown + ExecResult.
Variable fs_access : string → Thrown + unit.
Variable cwd : string.

Definition ready : string :=
  "✨ 开发环境已准备就绪！
      
💡 提示: 在这个环境中，您可以访问 flake.nix 中定义的所有开发工具。
使用 'exit' 命令退出开发环境。".

Definition execute (query : string) (options : CommandOptions) : Gen :=
  tryCatch
    (let envInfo :=
       NixUtils.detectEnvironment trim join execAsync fs_access cwd in
     if negb (hasNix envInfo) then
       Yield (NixUtils.getHelpMessage envInfo) Return
     else if negb (hasFlake envInfo) then
       Yield (NixUtils.getHelpMessage envInfo) Return
     else
       Yield ("🔧 进入 Nix 开发环境..." ++ NL)
         (match NixUtils.executeNixCommand trim execAsync "develop" [] with
          | inl e => Throw e
          | inr result =>
              let k := Yield ready Return in
              let k :=
                if truthy (stderr result) then
                  Yield ("⚠️  警告信息:" ++ NL ++ stderr result ++ NL) k
                else k in
              if truthy (stdout result) then
                Yield ("✅ 开发环境输出:" ++ NL ++ stdout result ++ NL) k
              else k
          end))
    (fun error =>
       Yield ("❌ 进入开发环境失败: " ++ errorText error)
         (* if (options.debug) console.error(...) *) Return).

End Execute.
End DevelopCommand.

(** The text of [NixCommand.getHelpMessage()]. *)
Definition NIX_HELP_MESSAGE : string :=
  "🔧 Vibe-Tools Nix 助手

AI驱动的 Nix Flakes 管理工具，支持自然语言操作。

用法: vibe-tools nix " ++ DQ ++ "<你的问题或任务描述>" ++ DQ ++ "

示例:
  # 基础操作
  vibe-tools nix " ++ DQ ++ "进入开发环境" ++ DQ ++ "
  vibe-tools nix " ++ DQ ++ "构建项目" ++ DQ ++ "
  vibe-tools nix " ++ DQ ++ "检查我的 flake 配置是否有效" ++ DQ ++ "

  # 配置任务
  vibe-tools nix " ++ DQ ++ "为 Python 项目创建一个包含 Django 的 flake.nix" ++ DQ ++ "
  vibe-tools nix " ++ DQ ++ "在开发环境中添加 Docker 和 kubectl" ++ DQ ++ "
  vibe-tools nix " ++ DQ ++ "优化我的 Rust 开发环境以提高性能" ++ DQ ++ "

  # 问题解决
  vibe-tools nix " ++ DQ ++ "修复构建失败，缺少 gcc 编译器" ++ DQ ++ "
  vibe-tools nix " ++ DQ ++ "解决两个包之间的依赖冲突" ++ DQ ++ "
  vibe-tools nix " ++ DQ ++ "我的 flake 文件没有被 nix 识别" ++ DQ ++ "

  # 分析和学习
  vibe-tools nix " ++ DQ ++ "解释我的 flake.nix 中 buildInputs 的作用" ++ DQ ++ "
  vibe-tools nix " ++ DQ ++ "分析我当前的配置并建议改进" ++ DQ ++ "

💡 提示: 用自然语言描述任何 nix 相关任务，AI 会自动选择最佳方法执行。".

(** ** Statements and sample inputs *)

(** Whether the scan stops at candidate [c]. *)
Definition usable (infos : list ProviderInfo) (c : Provider) : bool :=
  info_available (findProvider infos c).

(** The longest prefix of candidates that the scan passes over. *)
Fixpoint skipped (usable : Provider → bool) (cs : list Provider)
  : list Provider :=
  match cs with
  | [] => []
  | c :: cs' => if usable c then [] else c :: skipped usable cs'
  end.

(** An environment in which, of the provider credentials, exactly
    [OPENAI_API_KEY] and [GEMINI_API_KEY] are set. *)
Definition only_openai_gemini (env : Env) : Prop :=
  env_flag env "OPENAI_API_KEY" = true ∧
  env_flag env "GEMINI_API_KEY" = true ∧
  env_flag env "PERPLEXITY_API_KEY" = false ∧
  env_flag env "ANTHROPIC_API_KEY" = false ∧
  env_flag env "OPENROUTER_API_KEY" = false ∧
  env_flag env "MODELBOX_API_KEY" = false ∧
  env_flag env "XAI_API_KEY" = false ∧
  env_flag env "APIZH_API_KEY" = false.

(** The three selections of the scenario. *)
Definition ask_selections (env : Env) : Prop :=
  selectNext env "ask" None = inr (Some "openai") ∧
  selectNext env "ask" (Some "openai") = inr (Some "gemini") ∧
  selectNext env "ask" (Some "gemini") = inr None.

(** The scenario with the four-entry list the specification gives. *)
Definition ask_scenario_as_stated : Prop :=
  PROVIDER_PREFERENCE !! "ask" =
    Some ["apizh-cost"; "openai"; "gemini"; "apizh"] ∧
  ∀ env : Env, only_openai_gemini env → ask_selections env.

(** [getDefaultModel] fails with a thrown error outside the closed set. *)
Definition getDefaultModel_throws_on_unknown : Prop :=
  ∀ p : Provider, p ∉ KNOWN_PROVIDERS → ∃ e, getDefaultModel p = inl e.

(** Sample inputs: an environment with the two credentials of the "ask"
    scenario, a client that answers every prompt, and bare options. *)
Definition env_openai_gemini : Env :=
  list_to_map [("OPENAI_API_KEY", "sk-test"); ("GEMINI_API_KEY", "g-test")].

Definition sample_client : ProviderClient :=
  mkProviderClient
    (fun _ => inr None)
    (fun prompt _ => inr ("answer to: " ++ prompt))
    None.

Definition sample_options : CommandOptions :=
  mkCommandOptions (Some "openai") None None None None None None None.

(** Options whose telemetry callback throws. *)
Definition throwing_sink_options : CommandOptions :=
  mkCommandOptions (Some "openai") None None None None None None
    (Some (fun _ => Some (JsError "telemetry down"))).

(** The second half of the claim about [AskCommand.execute], as worded:
    whenever the provider call succeeds, the answer is the one chunk and
    the run completes. *)
Definition ask_success_as_stated : Prop :=
  ∀ (env : Env) (config_apizh_provider config_reasoningEffort : option string)
    (defaultMaxTokens : nat)
    (createProvider : string → Thrown + ProviderClient)
    (fetchDocContent : string → bool → Thrown + string)
    (trim : string → string) (query : string)
    (options : option CommandOptions)
    (model : string) (client : ProviderClient) (answer : string),
    isProviderAvailable env
      (AskCommand.providerName config_apizh_provider options) = true →
    AskCommand.resolveModel defaultMaxTokens createProvider
      (AskCommand.providerName config_apizh_provider options) options
      = inr model →
    createProvider (AskCommand.providerName config_apizh_provider options)
      = inr client →
    executePrompt client
      (AskCommand.finalQuery fetchDocContent trim query options)
      (AskCommand.modelOptions config_reasoningEffort defaultMaxTokens model
         options) = inr answer →
    chunks (AskCommand.execute env config_apizh_provider
              config_reasoningEffort defaultMaxTokens createProvider
              fetchDocContent trim query options) = [answer] ∧
    terminal (AskCommand.execute env config_apizh_provider
                config_reasoningEffort defaultMaxTokens createProvider
                fetchDocContent trim query options) = Done.

(** The environment variables [getAllProviders] reads. *)
Definition CREDENTIAL_VARIABLES : list string :=
  [ "PERPLEXITY_API_KEY"; "GEMINI_API_KEY"; "OPENAI_API_KEY";
    "ANTHROPIC_API_KEY"; "OPENROUTER_API_KEY"; "MODELBOX_API_KEY";
    "XAI_API_KEY"; "APIZH_API_KEY" ].

(** The line [getNextAvailableProvider] prints for a candidate it skips. *)
Definition notAvailableLine (candidate : Provider) : string :=
  "Provider " ++ candidate ++ " is not available".

(** The calls of the telemetry sink a body makes when driven to its end. *)
Fixpoint telemetry (g : Gen) : list TelemetryData :=
  match g with
  | Yield _ rest => telemetry rest
  | Tell data rest => data :: telemetry rest
  | Return | Throw _ => []
  end.

(** The number of backticks of a string. *)
Fixpoint countBackticks (s : string) : nat :=
  match s with
  | EmptyString => 0
  | String c r =>
      if Ascii.eqb c "`"%char then S (countBackticks r) else countBackticks r
  end.

(** More sample inputs: a client whose call fails, one that reports its
    token usage, and options with a telemetry sink and two documents. *)
Definition failing_client : ProviderClient :=
  mkProviderClient
    (fun _ => inr None)
    (fun _ _ => inl (JsError "quota exceeded"))
    None.

Definition metered_client : ProviderClient :=
  mkProviderClient
    (fun _ => inr (Some "gpt-4o"))
    (fun prompt _ => inr ("answer to: " ++ prompt))
    (Some (mkTokenUsage 12 34)).

Definition tracked_options : CommandOptions :=
  mkCommandOptions (Some "gemini") None None None
    (Some ["https://a.example/doc"; " "; "https://b.example/doc"])
    None None (Some (fun _ => None)).

Definition sample_fetch (url : string) (debug : bool) : Thrown + string :=
  if String.eqb url "https://a.example/doc" then inr "use `nix build`"
  else inl (JsError "404").

Definition sample_trim (s : string) : string :=
  if String.eqb s " " then EmptyString else s.

(** Sample collaborators of the nix commands: a machine with nix, a Go
    project with a flake outside any git repository. *)
Definition sample_execAsync (command : string) (cwd : option string)
  : Thrown + ExecResult :=
  if String.eqb command "which nix" then
    inr (mkExecResult "/usr/bin/nix" EmptyString)
  else if String.eqb command "nix develop" then
    inr (mkExecResult "shell ready" EmptyString)
  else inl (JsError ("command failed: " ++ command)).

Definition sample_join (dir file : string) : string := dir ++ "/" ++ file.

Definition sample_fs_access (path : string) : Thrown + unit :=
  if String.eqb path "/work/flake.nix" then inr tt
  else if String.eqb path "/work/go.mod" then inr tt
  else inl (JsError "ENOENT").

Definition sample_nix_trim (s : string) : string :=
  if String.eqb s "nix develop " then "nix develop"
  else if String.eqb s " " then EmptyString
  else s.

(** ** Properties of the registry and of the availability resolver *)

Section Registry.

Lemma known_providers_keys (p : Provider) :
  p ∈ KNOWN_PROVIDERS ↔ is_Some (DEFAULT_MODELS !! p).
Proof.
  split.
  - intros Hp. unfold KNOWN_PROVIDERS in Hp.
    repeat (apply elem_of_cons in Hp as [-> | Hp]; [by eexists |]).
    by apply elem_of_nil in Hp.
  - intros [m Hm]. unfold DEFAULT_MODELS in Hm.
    apply elem_of_list_to_map_2 in Hm. unfold KNOWN_PROVIDERS.
    repeat (apply elem_of_cons in Hm as [[= -> _] | Hm];
            [ set_solver |]).
    by apply elem_of_nil in Hm.
Qed.

Lemma all_providers_names (env : Env) :
  map provider (getAllProviders env) = KNOWN_PROVIDERS.
Proof. reflexivity. Qed.

Lemma known_providers_NoDup : NoDup KNOWN_PROVIDERS.
Proof. compute_done. Qed.

Lemma findProvider_Some infos id info :
  findProvider infos id = Some info → info ∈ infos ∧ provider info = id.
Proof.
  unfold findProvider. intros H. apply find_some in H as [Hin Heq].
  split; [by apply list_elem_of_In | by apply String.eqb_eq].
Qed.

Lemma findProvider_None infos id :
  findProvider infos id = None ↔ id ∉ map provider infos.
Proof.
  unfold findProvider. induction infos as [|x infos IH]; simpl.
  - split; [intros _; apply not_elem_of_nil | done].
  - destruct (String.eqb_spec (provider x) id) as [Heq | Hne].
    + split; [done |]. intros H. exfalso. apply H. subst. left.
    + rewrite IH, not_elem_of_cons. split; [by split | by intros [_ ?]].
Qed.

(** With distinct names, [find] reaches every entry. *)
Lemma findProvider_unique infos info :
  NoDup (map provider infos) → info ∈ infos →
  findProvider infos (provider info) = Some info.
Proof.
  unfold findProvider. induction infos as [|x infos IH]; simpl.
  - intros _ H. by apply elem_of_nil in H.
  - intros Hnd Hin. apply NoDup_cons in Hnd as [Hx Hnd].
    destruct (String.eqb_spec (provider x) (provider info)) as [Heq | Hne].
    + apply elem_of_cons in Hin as [-> | Hin]; [done |].
      exfalso. apply Hx. rewrite Heq. apply list_elem_of_fmap. eauto.
    + apply elem_of_cons in Hin as [-> | Hin]; [done | by apply IH].
Qed.

End Registry.

(** ** Properties of the scan *)

Section Scan.

Variable infos : list ProviderInfo.

Local Abbreviation usable := (usable infos).

Lemma scan_cons c cs :
  snd (scanProviders infos (c :: cs)) =
  if usable c then Some c else snd (scanProviders infos cs).
Proof.
  simpl. fold (usable c). destruct (usable c); [done |].
  by destruct (scanProviders infos cs).
Qed.

(** The scan returns the candidate at the least usable index. *)
Lemma scan_Some cs p :
  snd (scanProviders infos cs) = Some p ↔
  ∃ i : nat, cs !! i = Some p ∧ usable p = true ∧
       ∀ (j : nat) q, cs !! j = Some q → usable q = true → (i ≤ j)%nat.
Proof.
  induction cs as [|c cs IH].
  - simpl. split; [done |]. by intros (i & Hi & _).
  - rewrite scan_cons. destruct (usable c) eqn:Hc.
    + split.
      * intros [= <-]. exists 0. split_and!; [done | done |]. intros; lia.
      * intros (i & Hi & Hp & Hmin).
        specialize (Hmin 0 c eq_refl Hc).
        assert (i = 0) as -> by lia. by simplify_eq/=.
    + rewrite IH. split.
      * intros (i & Hi & Hp & Hmin). exists (S i). split_and!; [done..|].
        intros [|j] q Hj Hq; simplify_eq/=; [congruence |].
        specialize (Hmin j q Hj Hq). lia.
      * intros (i & Hi & Hp & Hmin). destruct i as [|i]; simplify_eq/=.
        { congruence. }
        exists i. split_and!; [done..|].
        intros j q Hj Hq. specialize (Hmin (S j) q Hj Hq). lia.
Qed.

Lemma scan_None cs :
  snd (scanProviders infos cs) = None ↔ ∀ q, q ∈ cs → usable q = false.
Proof.
  induction cs as [|c cs IH].
  - simpl. split; [|done]. intros _ q Hq. by apply elem_of_nil in Hq.
  - rewrite scan_cons. destruct (usable c) eqn:Hc.
    + split; [done |]. intros H. specialize (H c). rewrite Hc in H.
      discriminate H. left.
    + rewrite IH. split.
      * intros H q Hq. apply elem_of_cons in Hq as [-> | Hq]; auto.
      * intros H q Hq. apply H. by right.
Qed.

(** One line is printed for each candidate passed over, in order. *)
Lemma scan_lines cs :
  fst (scanProviders infos cs) =
  map (fun c => "Provider " ++ c ++ " is not available")
      (skipped usable cs).
Proof.
  induction cs as [|c cs IH]; [done |].
  simpl. fold (usable c). destruct (usable c); [done |].
  destruct (scanProviders infos cs); simpl in *. by f_equal.
Qed.

End Scan.

(** ** Properties of the tables and of [indexOf] *)

Section Tables.

(** Every preference list is non-empty, free of duplicates and made of
    known providers. *)
Lemma preference_lists t l :
  PROVIDER_PREFERENCE !! t = Some l →
  NoDup l ∧ l ≠ [] ∧ Forall (λ p, p ∈ KNOWN_PROVIDERS) l.
Proof.
  unfold PROVIDER_PREFERENCE. intros H. apply elem_of_list_to_map_2 in H.
  repeat (apply elem_of_cons in H as [[= _ ->] | H];
          [ split_and!; [compute_done | done | compute_done] |]).
  by apply elem_of_nil in H.
Qed.

Lemma known_provider_truthy p : p ∈ KNOWN_PROVIDERS → truthy p = true.
Proof.
  unfold KNOWN_PROVIDERS. intros H.
  repeat (apply elem_of_cons in H as [-> | H]; [done |]).
  by apply elem_of_nil in H.
Qed.

Lemma listed_truthy t l p :
  PROVIDER_PREFERENCE !! t = Some l → p ∈ l → truthy p = true.
Proof.
  intros Ht Hp. apply preference_lists in Ht as (_ & _ & Hk).
  rewrite Forall_forall in Hk. apply known_provider_truthy, Hk, Hp.
Qed.

Lemma indexOf_notin l x : x ∉ l → indexOf l x = (-1)%Z.
Proof.
  induction l as [|y l IH]; [done |]. intros Hx.
  apply not_elem_of_cons in Hx as [Hne Hx]. simpl.
  destruct (String.eqb_spec y x) as [-> | _]; [done |].
  by rewrite IH.
Qed.

Lemma indexOf_first l x (i : nat) :
  l !! i = Some x → (∀ j : nat, (j < i)%nat → l !! j ≠ Some x) →
  indexOf l x = Z.of_nat i.
Proof.
  revert i. induction l as [|y l IH]; intros i Hi Hfirst; [done |].
  simpl. destruct i as [|i].
  - simplify_eq/=. by rewrite String.eqb_refl.
  - destruct (String.eqb_spec y x) as [-> | _].
    + exfalso. apply (Hfirst 0%nat); [lia | done].
    + rewrite (IH i); [| done |].
      * destruct (Z.ltb_spec (Z.of_nat i) 0); lia.
      * intros j Hj. apply (Hfirst (S j)). lia.
Qed.

Lemma startIndex_omitted l : startIndex l None = 0%Z.
Proof. reflexivity. Qed.

Lemma startIndex_unlisted l p : p ∉ l → startIndex l (Some p) = 0%Z.
Proof.
  intros Hp. unfold startIndex. simpl.
  destruct (truthy p); [by rewrite indexOf_notin | done].
Qed.

Lemma startIndex_listed l p (i : nat) :
  truthy p = true → l !! i = Some p →
  (∀ j : nat, (j < i)%nat → l !! j ≠ Some p) →
  startIndex l (Some p) = Z.of_nat (S i).
Proof.
  intros Hp Hi Hfirst. unfold startIndex. simpl. rewrite Hp.
  rewrite (indexOf_first l p i Hi Hfirst). lia.
Qed.

(** The selector on a registered command type: a scan of the suffix of
    the preference list that begins at [startIndex]. *)
Lemma getNext_registered env t l cur :
  PROVIDER_PREFERENCE !! t = Some l →
  getNextAvailableProvider env t cur =
  (fst (scanProviders (getAllProviders env)
          (drop (Z.to_nat (startIndex l cur)) l)),
   inr (snd (scanProviders (getAllProviders env)
               (drop (Z.to_nat (startIndex l cur)) l)))).
Proof.
  intros Ht. unfold getNextAvailableProvider, readProperty. rewrite Ht.
  by destruct (scanProviders _ _).
Qed.

Lemma selectNext_registered env t l cur :
  PROVIDER_PREFERENCE !! t = Some l →
  selectNext env t cur =
  inr (snd (scanProviders (getAllProviders env)
              (drop (Z.to_nat (startIndex l cur)) l))).
Proof.
  intros Ht. unfold selectNext. by rewrite (getNext_registered env t l cur Ht).
Qed.

End Tables.

(** ** The fallback selector *)

(** C1.  For a command type [t] whose preference list [l] is non-empty, and
    an environment in which some provider of [l] is available,
    [getNextAvailableProvider(t)] called without [currentProvider] returns
    an available provider [p] of [l], at an index [i] that is at most the
    index of every available provider of [l]: the most preferred one. *)
Theorem selectNext_most_preferred (env : Env) (t : string) (l : list Provider) :
  PROVIDER_PREFERENCE !! t = Some l →
  l ≠ [] →
  (∃ q, q ∈ l ∧ isProviderAvailable env q = true) →
  ∃ (p : Provider) (i : nat),
    selectNext env t None = inr (Some p) ∧
    l !! i = Some p ∧
    isProviderAvailable env p = true ∧
    ∀ (j : nat) (q : Provider),
      l !! j = Some q → isProviderAvailable env q = true → (i ≤ j)%nat.
Proof.
  intros Ht _ (q & Hq & Hav).
  rewrite (selectNext_registered env t l None Ht), startIndex_omitted.
  change (drop (Z.to_nat 0) l) with l.
  destruct (snd (scanProviders (getAllProviders env) l)) as [p|] eqn:Hscan.
  - apply scan_Some in Hscan as (i & Hi & Hp & Hmin). by exists p, i.
  - exfalso. rewrite scan_None in Hscan. specialize (Hscan q Hq).
    unfold isProviderAvailable, getProviderInfo in Hav.
    unfold usable in Hscan. congruence.
Qed.

Lemma selectNext_most_preferred_witness :
  ∃ (p : Provider) (i : nat),
    selectNext env_openai_gemini "ask" None = inr (Some p) ∧
    ["apizh-cost"; "openai"; "modelbox"; "openrouter"; "gemini";
     "anthropic"; "perplexity"; "apizh"] !! i = Some p ∧
    isProviderAvailable env_openai_gemini p = true ∧
    ∀ (j : nat) (q : Provider),
      ["apizh-cost"; "openai"; "modelbox"; "openrouter"; "gemini";
       "anthropic"; "perplexity"; "apizh"] !! j = Some q →
      isProviderAvailable env_openai_gemini q = true → (i ≤ j)%nat.
Proof.
  apply (selectNext_most_preferred env_openai_gemini "ask").
  - reflexivity.
  - discriminate.
  - exists "gemini". split; [| reflexivity].
    apply list_elem_of_lookup. by exists 4%nat.
Defined.

(** C2.  When [p] first occurs at index [i] of [t]'s preference list [l],
    [getNextAvailableProvider(t, p)] scans the candidates [l[i+1..]] only:
    it does not throw, and a provider it returns is not [p], sits at an
    index greater than [i], and occurs at no index up to [i]. *)
Theorem selectNext_after_current (env : Env) (t : string) (l : list Provider)
    (p : Provider) (i : nat) :
  PROVIDER_PREFERENCE !! t = Some l →
  l !! i = Some p →
  (∀ j : nat, (j < i)%nat → l !! j ≠ Some p) →
  getNextAvailableProvider env t (Some p) =
    (fst (scanProviders (getAllProviders env) (drop (S i) l)),
     inr (snd (scanProviders (getAllProviders env) (drop (S i) l)))) ∧
  ∀ q : Provider,
    selectNext env t (Some p) = inr (Some q) →
    q ≠ p ∧
    (∃ j : nat, (i < j)%nat ∧ l !! j = Some q) ∧
    ∀ k : nat, (k ≤ i)%nat → l !! k ≠ Some q.
Proof.
  intros Ht Hi Hfirst.
  assert (Hp : truthy p = true).
  { apply (listed_truthy t l); [done |]. apply list_elem_of_lookup. eauto. }
  pose proof (startIndex_listed l p i Hp Hi Hfirst) as Hstart.
  split.
  - rewrite (getNext_registered env t l (Some p) Ht), Hstart.
    by rewrite Nat2Z.id.
  - intros q Hq.
    rewrite (selectNext_registered env t l (Some p) Ht), Hstart, Nat2Z.id in Hq.
    injection Hq as Hq. apply scan_Some in Hq as (j & Hj & _ & _).
    rewrite lookup_drop in Hj.
    apply preference_lists in Ht as (Hnd & _ & _).
    assert (Hk : ∀ k : nat, (k ≤ i)%nat → l !! k ≠ Some q).
    { intros k Hk Hlk.
      pose proof (NoDup_lookup l k (S i + j) q Hnd Hlk Hj). lia. }
    split_and!; [| exists (S i + j)%nat; split; [lia | done] | done].
    intros ->. by apply (Hk i).
Qed.

Lemma selectNext_after_current_witness :
  getNextAvailableProvider env_openai_gemini "ask" (Some "openai") =
    (["Provider modelbox is not available";
      "Provider openrouter is not available"], inr (Some "gemini")) ∧
  ∀ q : Provider,
    selectNext env_openai_gemini "ask" (Some "openai") = inr (Some q) →
    q ≠ "openai" ∧
    (∃ j : nat, (1 < j)%nat ∧
       ["apizh-cost"; "openai"; "modelbox"; "openrouter"; "gemini";
        "anthropic"; "perplexity"; "apizh"] !! j = Some q) ∧
    ∀ k : nat, (k ≤ 1)%nat →
       ["apizh-cost"; "openai"; "modelbox"; "openrouter"; "gemini";
        "anthropic"; "perplexity"; "apizh"] !! k ≠ Some q.
Proof.
  apply (selectNext_after_current env_openai_gemini "ask"
           ["apizh-cost"; "openai"; "modelbox"; "openrouter"; "gemini";
            "anthropic"; "perplexity"; "apizh"] "openai" 1).
  - reflexivity.
  - reflexivity.
  - intros j Hj. assert (j = 0%nat) as -> by lia. discriminate.
Defined.

(** C3.  When no provider of [t]'s preference list is available,
    [getNextAvailableProvider(t, p)] returns [undefined], and does not
    throw, for every [currentProvider] [p], omitted or not. *)
Theorem selectNext_exhausted (env : Env) (t : string) (l : list Provider)
    (cur : option Provider) :
  PROVIDER_PREFERENCE !! t = Some l →
  (∀ q, q ∈ l → isProviderAvailable env q = false) →
  selectNext env t cur = inr None.
Proof.
  intros Ht Hnone. rewrite (selectNext_registered env t l cur Ht).
  f_equal. apply scan_None. intros q Hq. apply Hnone.
  by apply (subseteq_drop (Z.to_nat (startIndex l cur)) l).
Qed.

Lemma selectNext_exhausted_witness :
  selectNext ∅ "web" (Some "perplexity") = inr None.
Proof.
  apply (selectNext_exhausted ∅ "web"
           ["apizh-web"; "perplexity"; "gemini"; "modelbox"; "openrouter";
            "apizh"]).
  - reflexivity.
  - intros q Hq.
    repeat (apply elem_of_cons in Hq as [-> | Hq]; [reflexivity |]).
    by apply elem_of_nil in Hq.
Defined.

(** C4.  The guard [if (!preferenceOrder)] of [getNextAvailableProvider]
    tests the value read from the table.  For an identifier that is
    neither a key of [PROVIDER_PREFERENCE] nor the name of a member
    inherited from [Object.prototype], the read is [undefined] and the
    function throws [Error("Unknown command type: ...")], whatever the
    environment and the current provider.  For the name of an inherited
    member, which has no registered list either, the read is that member
    and the guard lets it through: without a current provider the function
    returns [undefined], with one it throws the TypeError of the missing
    [indexOf]; in neither case the error for an unknown command type.  So
    at "toString" the function returns [undefined] in every
    environment. *)
Theorem unknown_command_type_guard (env : Env) (t : string)
    (cur : option Provider) :
  (PROVIDER_PREFERENCE !! t = None → inheritedMember t = None →
   getNextAvailableProvider env t cur =
     ([], inl (JsError ("Unknown command type: " ++ t)))) ∧
  (∀ member, PROVIDER_PREFERENCE !! t = None →
     inheritedMember t = Some member →
     selectNext env t cur =
       (if truthy_opt cur
        then inl (JsError "preferenceOrder.indexOf is not a function")
        else inr None) ∧
     selectNext env t cur ≠ inl (JsError ("Unknown command type: " ++ t))) ∧
  (PROVIDER_PREFERENCE !! "toString" = None ∧
   getNextAvailableProvider env "toString" None = ([], inr None)).
Proof.
  split_and!.
  - intros Ht Hm. unfold getNextAvailableProvider, readProperty.
    by rewrite Ht, Hm.
  - intros member Ht Hm. unfold selectNext, getNextAvailableProvider,
      readProperty. rewrite Ht, Hm.
    destruct (truthy_opt cur); cbn [snd]; split; [done | | done |];
      intros H; discriminate H.
  - reflexivity.
  - reflexivity.
Qed.

Lemma unknown_command_type_guard_witness :
  getNextAvailableProvider env_openai_gemini "nonexistent" None =
    ([], inl (JsError "Unknown command type: nonexistent")) ∧
  selectNext env_openai_gemini "constructor" None = inr None ∧
  selectNext env_openai_gemini "constructor" (Some "openai") =
    inl (JsError "preferenceOrder.indexOf is not a function").
Proof.
  split_and!.
  - destruct (unknown_command_type_guard env_openai_gemini "nonexistent" None)
      as (H & _ & _).
    apply H; reflexivity.
  - destruct (unknown_command_type_guard env_openai_gemini "constructor" None)
      as (_ & H & _).
    apply (H (ProtoFunction 1)); reflexivity.
  - destruct (unknown_command_type_guard env_openai_gemini "constructor"
                (Some "openai")) as (_ & H & _).
    apply (H (ProtoFunction 1)); reflexivity.
Defined.

(** *** The "ask" scenario *)

(** C5, as stated, fails: the list registered for "ask" has eight entries;
    [modelbox], [openrouter], [anthropic] and [perplexity] are in it. *)
Lemma ask_scenario_as_stated_fails : ¬ ask_scenario_as_stated.
Proof. intros [Hlist _]. vm_compute in Hlist. discriminate Hlist. Qed.

(** C5, amended.  The preference list for "ask" is [apizh-cost, openai,
    modelbox, openrouter, gemini, anthropic, perplexity, apizh]; with only
    [OPENAI_API_KEY] and [GEMINI_API_KEY] set, the selector returns
    [openai], then [gemini] after [openai], then [undefined] after
    [gemini]. *)
Theorem ask_scenario (env : Env) :
  only_openai_gemini env →
  PROVIDER_PREFERENCE !! "ask" =
    Some ["apizh-cost"; "openai"; "modelbox"; "openrouter"; "gemini";
          "anthropic"; "perplexity"; "apizh"] ∧
  ask_selections env.
Proof.
  intros (Ho & Hg & Hp & Ha & Hr & Hm & Hx & Hz).
  split; [reflexivity |].
  unfold ask_selections, selectNext, getNextAvailableProvider, readProperty.
  change (PROVIDER_PREFERENCE !! "ask")
    with (Some ["apizh-cost"; "openai"; "modelbox"; "openrouter"; "gemini";
                "anthropic"; "perplexity"; "apizh"]).
  unfold getAllProviders. rewrite Ho, Hg, Hp, Ha, Hr, Hm, Hx, Hz.
  split_and!; reflexivity.
Qed.

Lemma ask_scenario_witness :
  PROVIDER_PREFERENCE !! "ask" =
    Some ["apizh-cost"; "openai"; "modelbox"; "openrouter"; "gemini";
          "anthropic"; "perplexity"; "apizh"] ∧
  ask_selections env_openai_gemini.
Proof.
  apply (ask_scenario env_openai_gemini).
  unfold only_openai_gemini. split_and!; reflexivity.
Defined.

(** *** Unlisted current provider *)

(** C7.  When [p] does not occur in [t]'s preference list,
    [getNextAvailableProvider(t, p)] is [getNextAvailableProvider(t)]: the
    same scan from index 0, the same console lines, the same result. *)
Theorem selectNext_unlisted_current (env : Env) (t : string)
    (l : list Provider) (p : Provider) :
  PROVIDER_PREFERENCE !! t = Some l →
  p ∉ l →
  startIndex l (Some p) = 0%Z ∧
  getNextAvailableProvider env t (Some p) = getNextAvailableProvider env t None ∧
  selectNext env t (Some p) = selectNext env t None.
Proof.
  intros Ht Hp. pose proof (startIndex_unlisted l p Hp) as Hs.
  split; [done |].
  assert (getNextAvailableProvider env t (Some p)
          = getNextAvailableProvider env t None) as Heq.
  { rewrite !(getNext_registered env t l _ Ht). by rewrite Hs. }
  split; [done |]. unfold selectNext. by rewrite Heq.
Qed.

Lemma selectNext_unlisted_current_witness :
  startIndex ["apizh-web"; "perplexity"; "gemini"; "modelbox"; "openrouter";
              "apizh"] (Some "openai") = 0%Z ∧
  getNextAvailableProvider env_openai_gemini "web" (Some "openai")
    = getNextAvailableProvider env_openai_gemini "web" None ∧
  selectNext env_openai_gemini "web" (Some "openai")
    = selectNext env_openai_gemini "web" None.
Proof.
  apply (selectNext_unlisted_current env_openai_gemini "web"
           ["apizh-web"; "perplexity"; "gemini"; "modelbox"; "openrouter";
            "apizh"] "openai").
  - reflexivity.
  - intros H.
    repeat (apply elem_of_cons in H as [H | H]; [discriminate H |]).
    by apply elem_of_nil in H.
Defined.

(** ** The registry and the availability resolver *)

(** C6, as stated, fails: for an identifier outside the closed set
    [getDefaultModel] returns [undefined]; nothing is thrown. *)
Lemma getDefaultModel_unknown_not_thrown :
  ("nonexistent" ∉ KNOWN_PROVIDERS) ∧
  getDefaultModel "nonexistent" = inr Absent ∧
  ¬ getDefaultModel_throws_on_unknown.
Proof.
  assert (Hn : "nonexistent" ∉ KNOWN_PROVIDERS) by compute_done.
  split_and!; [done | reflexivity |].
  intros H. destruct (H "nonexistent" Hn) as [e He]. discriminate He.
Qed.

(** C6, amended.  [getDefaultModel] never throws.  For an identifier of
    the closed set it returns that provider's entry of [DEFAULT_MODELS].
    For any other identifier it returns no model: the member inherited
    from [Object.prototype] when the identifier names one (such as
    [toString]), and [undefined] otherwise. *)
Theorem getDefaultModel_lookup (p : Provider) :
  (p ∈ KNOWN_PROVIDERS →
     ∃ m, DEFAULT_MODELS !! p = Some m ∧ getDefaultModel p = inr (Own m)) ∧
  (p ∉ KNOWN_PROVIDERS →
     (∀ e, getDefaultModel p ≠ inl e) ∧
     (∀ m, getDefaultModel p ≠ inr (Own m)) ∧
     (∀ member, inheritedMember p = Some member →
                getDefaultModel p = inr (Inherited member)) ∧
     (inheritedMember p = None → getDefaultModel p = inr Absent)).
Proof.
  unfold getDefaultModel, readProperty. split.
  - intros Hp. apply known_providers_keys in Hp as [m Hm].
    exists m. by rewrite Hm.
  - intros Hp.
    assert (DEFAULT_MODELS !! p = None) as ->.
    { apply eq_None_not_Some. by rewrite <- known_providers_keys. }
    split_and!.
    + intros e H. discriminate H.
    + intros m H. destruct (inheritedMember p); discriminate H.
    + by intros member ->.
    + by intros ->.
Qed.

Lemma getDefaultModel_lookup_witness :
  (∃ m, DEFAULT_MODELS !! "openai" = Some m
        ∧ getDefaultModel "openai" = inr (Own m)) ∧
  getDefaultModel "nonexistent" = inr Absent ∧
  getDefaultModel "toString" = inr (Inherited (ProtoFunction 0)).
Proof.
  split_and!.
  - destruct (getDefaultModel_lookup "openai") as [H _].
    apply H. compute_done.
  - destruct (getDefaultModel_lookup "nonexistent") as [_ H].
    destruct H as (_ & _ & _ & H); [compute_done |]. apply H. reflexivity.
  - destruct (getDefaultModel_lookup "toString") as [_ H].
    destruct H as (_ & _ & H & _); [compute_done |]. apply H. reflexivity.
Defined.

(** C8.  In a fixed environment: [isProviderAvailable(id)] is the
    [available] field of every entry of [getAllProviders()] named [id]
    (there is at most one, and [find] returns it); it is [false], not an
    error, when no entry is named [id]; and [getAvailableProviders()] is
    [getAllProviders()] restricted, in order, to the entries whose
    [available] is [true]. *)
Theorem availability_agrees (env : Env) (id : string) :
  (∀ info, getProviderInfo env id = Some info →
           isProviderAvailable env id = available info) ∧
  (∀ info, info ∈ getAllProviders env → provider info = id →
           getProviderInfo env id = Some info ∧
           isProviderAvailable env id = available info) ∧
  (id ∉ KNOWN_PROVIDERS →
     getProviderInfo env id = None ∧ isProviderAvailable env id = false) ∧
  getAvailableProviders env
    = List.filter (fun p => available p) (getAllProviders env) ∧
  (∀ info, info ∈ getAvailableProviders env ↔
           info ∈ getAllProviders env ∧ available info = true).
Proof.
  split_and!.
  - intros info H. unfold isProviderAvailable. by rewrite H.
  - intros info Hin <-.
    assert (getProviderInfo env (provider info) = Some info) as H.
    { apply findProvider_unique; [| done].
      rewrite all_providers_names. apply known_providers_NoDup. }
    split; [done |]. unfold isProviderAvailable. by rewrite H.
  - intros Hid.
    assert (getProviderInfo env id = None) as H.
    { apply findProvider_None. by rewrite all_providers_names. }
    split; [done |]. unfold isProviderAvailable. by rewrite H.
  - reflexivity.
  - intros info. unfold getAvailableProviders.
    rewrite !list_elem_of_In, filter_In. done.
Qed.

Lemma availability_agrees_witness :
  (getProviderInfo env_openai_gemini "nonexistent" = None ∧
   isProviderAvailable env_openai_gemini "nonexistent" = false) ∧
  getAvailableProviders env_openai_gemini
    = [ mkProviderInfo "gemini" true (Some "gemini-2.5-pro");
        mkProviderInfo "openai" true (Some "gpt-4.1") ].
Proof.
  destruct (availability_agrees env_openai_gemini "nonexistent")
    as (_ & _ & Hunknown & Hfilter & _).
  split; [apply Hunknown; compute_done | rewrite Hfilter; reflexivity].
Defined.

(** ** The command execution contract *)

Section Contract.

Lemma pull_Tell n d g : pull n (Tell d g) = pull n g.
Proof. by destruct n. Qed.

Lemma pull_Return n : pull n Return = replicate n Done.
Proof. induction n as [|n IH]; [done |]. simpl. by rewrite IH. Qed.

Lemma pull_in_order_upto (g : Gen) (n m : nat) :
  (n ≤ m)%nat →
  pull n g = take n (map Value (chunks g) ++ terminal g :: replicate m Done).
Proof.
  revert n. induction g as [c g IH | d g IH | | e]; intros n Hn.
  - destruct n as [|n]; [done |]. simpl. f_equal. apply IH. lia.
  - rewrite pull_Tell. by apply IH.
  - rewrite pull_Return. simpl.
    change (Done :: replicate m Done) with (replicate (S m) Done).
    rewrite take_replicate. f_equal. lia.
  - destruct n as [|n]; [done |]. simpl. f_equal.
    rewrite pull_Return, take_replicate. f_equal. lia.
Qed.

(** Whatever number of results a caller requests, it is handed the chunks
    in program order, one per request, then the way the body ended, then
    [Done] for ever. *)
Lemma pull_in_order (g : Gen) (n : nat) :
  pull n g = take n (map Value (chunks g) ++ terminal g :: replicate n Done).
Proof. by apply pull_in_order_upto. Qed.

Lemma forAwait_Tell fuel d g : forAwait fuel (Tell d g) = forAwait fuel g.
Proof. by destruct fuel. Qed.

(** A [for await] loop ends, and hands over every chunk before the way the
    body ended. *)
Lemma forAwait_in_order (g : Gen) (fuel : nat) :
  (length (chunks g) < fuel)%nat →
  forAwait fuel g = (map Value (chunks g) ++ [terminal g])%list.
Proof.
  revert fuel. induction g as [c g IH | d g IH | | e]; intros fuel Hf.
  - destruct fuel as [|fuel]; [simpl in Hf; lia |]. simpl in *.
    f_equal. apply IH. lia.
  - rewrite forAwait_Tell. by apply IH.
  - destruct fuel; [simpl in Hf; lia | done].
  - destruct fuel; [simpl in Hf; lia | done].
Qed.

(** Delegation under a handler that rethrows leaves the body as it is. *)
Lemma tryCatch_yieldStar_rethrow (g : Gen) :
  tryCatch (yieldStar g Return) (fun error => Throw error) = g.
Proof. induction g; simpl; by f_equal. Qed.

(** A blank query is answered with the help text alone. *)
Lemma nix_execute_blank trim help assist query options :
  truthy (trim query) = false →
  NixCommand.execute trim help assist query options = Yield help Return.
Proof. intros Hq. unfold NixCommand.execute. by rewrite Hq. Qed.

End Contract.

(** C9.  [NixCommand.execute] on a non-blank query hands its caller the
    chunks of the producer it delegates to ([assistCommand.execute]) in the
    order the producer yields them, one chunk per request, none lost, none
    merged; then the way the producer ended (completion, or the error it
    threw); after that only [done].  So a producer that yields "He", "llo"
    and then throws [E] is observed as "He", "llo", [E], and no chunk
    follows [E].  The same holds for a caller that stops early: it sees a
    prefix. *)
Theorem chunks_delivered_in_order
    (trim : string → string) (getHelpMessage : string)
    (assistCommand_execute : string → CommandOptions → Gen)
    (query : string) (options : CommandOptions) (n : nat) :
  truthy (trim query) = true →
  let producer := assistCommand_execute query options in
  let gen :=
    NixCommand.execute trim getHelpMessage assistCommand_execute query options in
  pull n gen
    = take n (map Value (chunks producer)
              ++ terminal producer :: replicate n Done) ∧
  forAwait (S (length (chunks producer))) gen
    = (map Value (chunks producer) ++ [terminal producer])%list.
Proof.
  intros Hq producer gen.
  assert (gen = producer) as ->.
  { unfold gen, NixCommand.execute. rewrite Hq. simpl.
    apply tryCatch_yieldStar_rethrow. }
  split; [apply pull_in_order | apply forAwait_in_order; lia].
Qed.

(** The scenario of C9: "He", "llo", then the error [E]. *)
Lemma chunks_delivered_in_order_witness :
  let assist := fun (_ : string) (_ : CommandOptions) =>
    Yield "He" (Yield "llo" (Throw (JsError "E"))) in
  let options := mkCommandOptions None None None None None None None None in
  pull 5 (NixCommand.execute (fun s => s) "help" assist "build it" options)
    = [Value "He"; Value "llo"; Rejected (JsError "E"); Done; Done] ∧
  forAwait 3 (NixCommand.execute (fun s => s) "help" assist "build it" options)
    = [Value "He"; Value "llo"; Rejected (JsError "E")].
Proof.
  intros assist options.
  apply (chunks_delivered_in_order (fun s => s) "help" assist "build it"
           options 5).
  reflexivity.
Defined.

(** ** [AskCommand.execute] *)

Section AskOutcomes.

Variable env : Env.
Variable config_apizh_provider : option string.
Variable config_reasoningEffort : option string.
Variable defaultMaxTokens : nat.
Variable createProvider : string → Thrown + ProviderClient.
Variable fetchDocContent : string → bool → Thrown + string.
Variable trim : string → string.

Local Abbreviation ask_execute :=
  (AskCommand.execute env config_apizh_provider config_reasoningEffort
     defaultMaxTokens createProvider fetchDocContent trim).
Local Abbreviation ask_providerName :=
  (AskCommand.providerName config_apizh_provider).
Local Abbreviation ask_resolveModel :=
  (AskCommand.resolveModel defaultMaxTokens createProvider).
Local Abbreviation ask_finalQuery := (AskCommand.finalQuery fetchDocContent trim).
Local Abbreviation ask_modelOptions :=
  (AskCommand.modelOptions config_reasoningEffort defaultMaxTokens).

Lemma available_listed (id : string) :
  isProviderAvailable env id = true →
  ∃ info, findProvider (getAllProviders env) id = Some info ∧
          available info = true ∧
          List.filter (fun p => available p) (getAllProviders env) ≠ [].
Proof.
  unfold isProviderAvailable, getProviderInfo.
  destruct (findProvider (getAllProviders env) id) as [info|] eqn:Hfind;
    cbn [info_available]; [| intros; discriminate].
  intros Hav. exists info. split; [reflexivity |]. split; [exact Hav |].
  apply findProvider_Some in Hfind as [Hin _].
  intros Hnil.
  assert (In info (List.filter (fun p => available p) (getAllProviders env)))
    as Hf.
  { apply filter_In. split; [apply list_elem_of_In, Hin | exact Hav]. }
  rewrite Hnil in Hf. destruct Hf.
Qed.

(** C10, as stated, fails: with a telemetry callback that throws, the
    provider call succeeds and yet the run yields nothing and rejects with
    a [ProviderError], because the callback is called inside the [try]. *)
Lemma ask_success_as_stated_fails :
  chunks (AskCommand.execute env_openai_gemini None None 100
            (fun _ => inr sample_client)
            (fun _ _ => inl (JsError "offline")) (fun s => s) "hi"
            (Some throwing_sink_options)) = [] ∧
  terminal (AskCommand.execute env_openai_gemini None None 100
              (fun _ => inr sample_client)
              (fun _ _ => inl (JsError "offline")) (fun s => s) "hi"
              (Some throwing_sink_options))
    = Rejected (ProviderError "telemetry down" (JsError "telemetry down")) ∧
  ¬ ask_success_as_stated.
Proof.
  split_and!; [reflexivity | reflexivity |].
  intros H.
  destruct (H env_openai_gemini None None 100 (fun _ => inr sample_client)
              (fun _ _ => inl (JsError "offline")) (fun s => s) "hi"
              (Some throwing_sink_options) "gpt-4.1" sample_client
              "answer to: hi" eq_refl eq_refl eq_refl eq_refl) as [Hc _].
  discriminate Hc.
Qed.

(** C10, amended.  [AskCommand.execute] throws a [ProviderError], as the
    first thing its caller sees and with no chunk yielded, when no provider
    is available, when the resolved provider name is not a known provider,
    or when that provider is not available.  When the provider is
    available, the model and the client are obtained, [executePrompt]
    returns an answer and the telemetry callback, if one is supplied,
    returns normally, it yields that answer as its only chunk and
    completes.  When the callback throws instead, it yields nothing and
    throws a [ProviderError] that carries the value thrown. *)
Theorem ask_execute_outcomes (query : string)
    (options : option CommandOptions) :
  (getAvailableProviders env = [] ∨
   getProviderInfo env (ask_providerName options) = None ∨
   isProviderAvailable env (ask_providerName options) = false →
   ∃ msg,
     ask_execute query options = Throw (ProviderError msg JsUndefined) ∧
     chunks (ask_execute query options) = [] ∧
     pull 1 (ask_execute query options)
       = [Rejected (ProviderError msg JsUndefined)]) ∧
  (∀ (model : string) (client : ProviderClient) (answer : string),
     isProviderAvailable env (ask_providerName options) = true →
     ask_resolveModel (ask_providerName options) options = inr model →
     createProvider (ask_providerName options) = inr client →
     executePrompt client (ask_finalQuery query options)
       (ask_modelOptions model options) = inr answer →
     (∀ sink, options ≫= opt_trackTelemetry = Some sink →
        sink (AskCommand.telemetryData client (ask_providerName options)
                model) = None) →
     chunks (ask_execute query options) = [answer] ∧
     terminal (ask_execute query options) = Done ∧
     pull 2 (ask_execute query options) = [Value answer; Done]) ∧
  (∀ (model : string) (client : ProviderClient) (answer : string)
     (sink : TelemetryData → option Thrown) (e : Thrown),
     isProviderAvailable env (ask_providerName options) = true →
     ask_resolveModel (ask_providerName options) options = inr model →
     createProvider (ask_providerName options) = inr client →
     executePrompt client (ask_finalQuery query options)
       (ask_modelOptions model options) = inr answer →
     options ≫= opt_trackTelemetry = Some sink →
     sink (AskCommand.telemetryData client (ask_providerName options) model)
       = Some e →
     chunks (ask_execute query options) = [] ∧
     terminal (ask_execute query options)
       = Rejected (ProviderError
                     (if instanceofError e then message e
                      else "Unknown error during ask command execution") e) ∧
     pull 1 (ask_execute query options)
       = [Rejected (ProviderError
                      (if instanceofError e then message e
                       else "Unknown error during ask command execution")
                      e)]).
Proof.
  split_and!.
  - intros H. unfold AskCommand.execute.
    destruct (Nat.eqb_spec
      (length (List.filter (fun p => available p) (getAllProviders env))) 0)
      as [_ | Hlen].
    { eexists. split_and!; reflexivity. }
    destruct (findProvider (getAllProviders env)
                (AskCommand.providerName config_apizh_provider options))
      as [info|] eqn:Hfind.
    2: { eexists. split_and!; reflexivity. }
    destruct (available info) eqn:Hav; cbn [negb].
    2: { eexists. split_and!; reflexivity. }
    exfalso. destruct H as [H | [H | H]].
    + unfold getAvailableProviders in H. rewrite H in Hlen. by apply Hlen.
    + unfold getProviderInfo in H. congruence.
    + unfold isProviderAvailable, getProviderInfo in H.
      rewrite Hfind in H. cbn [info_available] in H. congruence.
  - intros model client answer Hav Hmodel Hclient Hanswer Hsink.
    apply available_listed in Hav as (info & Hfind & Havail & Hne).
    unfold AskCommand.execute.
    destruct (Nat.eqb_spec
      (length (List.filter (fun p => available p) (getAllProviders env))) 0)
      as [Hlen | _].
    { exfalso. apply Hne. apply length_zero_iff_nil, Hlen. }
    rewrite Hfind, Havail. cbn [negb]. rewrite Hmodel, Hclient, Hanswer.
    unfold AskCommand.trackTelemetry.
    destruct (options ≫= opt_trackTelemetry) as [sink|];
      [rewrite (Hsink sink eq_refl) |]; split_and!; reflexivity.
  - intros model client answer sink e Hav Hmodel Hclient Hanswer Hopt Hsink.
    apply available_listed in Hav as (info & Hfind & Havail & Hne).
    unfold AskCommand.execute.
    destruct (Nat.eqb_spec
      (length (List.filter (fun p => available p) (getAllProviders env))) 0)
      as [Hlen | _].
    { exfalso. apply Hne. apply length_zero_iff_nil, Hlen. }
    rewrite Hfind, Havail. cbn [negb]. rewrite Hmodel, Hclient, Hanswer.
    unfold AskCommand.trackTelemetry. rewrite Hopt, Hsink.
    split_and!; reflexivity.
Qed.

End AskOutcomes.

Lemma ask_execute_outcomes_witness :
  (∃ msg,
     AskCommand.execute ∅ None None 100 (fun _ => inr sample_client)
       (fun _ _ => inl (JsError "offline")) (fun s => s) "hi" None
       = Throw (ProviderError msg JsUndefined) ∧
     chunks (AskCommand.execute ∅ None None 100 (fun _ => inr sample_client)
       (fun _ _ => inl (JsError "offline")) (fun s => s) "hi" None) = [] ∧
     pull 1 (AskCommand.execute ∅ None None 100 (fun _ => inr sample_client)
       (fun _ _ => inl (JsError "offline")) (fun s => s) "hi" None)
       = [Rejected (ProviderError msg JsUndefined)]) ∧
  (chunks (AskCommand.execute env_openai_gemini None None 100
       (fun _ => inr metered_client) (fun _ _ => inl (JsError "offline"))
       (fun s => s) "hi" (Some tracked_options)) = ["answer to: hi"] ∧
   terminal (AskCommand.execute env_openai_gemini None None 100
       (fun _ => inr metered_client) (fun _ _ => inl (JsError "offline"))
       (fun s => s) "hi" (Some tracked_options)) = Done ∧
   pull 2 (AskCommand.execute env_openai_gemini None None 100
       (fun _ => inr metered_client) (fun _ _ => inl (JsError "offline"))
       (fun s => s) "hi" (Some tracked_options))
     = [Value "answer to: hi"; Done]) ∧
  (chunks (AskCommand.execute env_openai_gemini None None 100
       (fun _ => inr sample_client) (fun _ _ => inl (JsError "offline"))
       (fun s => s) "hi" (Some throwing_sink_options)) = [] ∧
   terminal (AskCommand.execute env_openai_gemini None None 100
       (fun _ => inr sample_client) (fun _ _ => inl (JsError "offline"))
       (fun s => s) "hi" (Some throwing_sink_options))
     = Rejected (ProviderError "telemetry down" (JsError "telemetry down")) ∧
   pull 1 (AskCommand.execute env_openai_gemini None None 100
       (fun _ => inr sample_client) (fun _ _ => inl (JsError "offline"))
       (fun s => s) "hi" (Some throwing_sink_options))
     = [Rejected (ProviderError "telemetry down"
                    (JsError "telemetry down"))]).
Proof.
  split; [| split].
  - destruct (ask_execute_outcomes ∅ None None 100
                (fun _ => inr sample_client)
                (fun _ _ => inl (JsError "offline")) (fun s => s) "hi" None)
      as (H & _ & _).
    apply H. left. reflexivity.
  - destruct (ask_execute_outcomes env_openai_gemini None None 100
                (fun _ => inr metered_client)
                (fun _ _ => inl (JsError "offline"))
                (fun s => s) "hi" (Some tracked_options)) as (_ & H & _).
    apply (H "gemini-2.5-pro" metered_client "answer to: hi");
      try reflexivity.
    intros sink [= <-]. reflexivity.
  - destruct (ask_execute_outcomes env_openai_gemini None None 100
                (fun _ => inr sample_client)
                (fun _ _ => inl (JsError "offline"))
                (fun s => s) "hi" (Some throwing_sink_options))
      as (_ & _ & H).
    apply (H "gpt-4.1" sample_client "answer to: hi"
             (fun _ => Some (JsError "telemetry down"))
             (JsError "telemetry down")); reflexivity.
Defined.

(** * Further properties of the code *)

(** ** The registry *)

Section RegistryFacts.

Lemma all_providers_cases (env : Env) (P : ProviderInfo → Prop) :
  Forall P (getAllProviders env) →
  ∀ info, info ∈ getAllProviders env → P info.
Proof. intros H info Hin. by apply (proj1 (Forall_forall _ _) H). Qed.

Lemma usable_available (env : Env) (id : string) :
  usable (getAllProviders env) id = isProviderAvailable env id.
Proof. reflexivity. Qed.

End RegistryFacts.

(** X1.  Each entry of [getAllProviders()] takes [available] from one
    environment variable: an entry whose name begins with "apizh" from
    [APIZH_API_KEY], every other entry from its own name in upper case
    followed by [_API_KEY].  So the nine [apizh-*] variants are available
    exactly when [apizh] is. *)
Theorem credential_of_provider (env : Env) (info : ProviderInfo) :
  info ∈ getAllProviders env →
  available info =
    env_flag env
      (if String.prefix "apizh" (provider info) then "APIZH_API_KEY"
       else toUpperCase (provider info) ++ "_API_KEY") ∧
  (String.prefix "apizh" (provider info) = true →
   isProviderAvailable env (provider info) = isProviderAvailable env "apizh").
Proof.
  revert info. apply all_providers_cases. unfold getAllProviders.
  repeat (apply Forall_cons; split; [split; [reflexivity |] |]).
  all: try (intros _; reflexivity); try (intros H; discriminate H).
  constructor.
Qed.

Lemma credential_of_provider_witness :
  available (mkProviderInfo "apizh-cost" false (Some "gpt-4o-mini")) =
    env_flag env_openai_gemini "APIZH_API_KEY" ∧
  (String.prefix "apizh" "apizh-cost" = true →
   isProviderAvailable env_openai_gemini "apizh-cost"
     = isProviderAvailable env_openai_gemini "apizh").
Proof.
  apply (credential_of_provider env_openai_gemini
           (mkProviderInfo "apizh-cost" false (Some "gpt-4o-mini"))).
  apply list_elem_of_lookup. by exists 15%nat.
Defined.

Lemma known_provider_info (env : Env) (id : string) :
  id ∈ KNOWN_PROVIDERS →
  ∃ m : string,
    getProviderInfo env id
      = Some (mkProviderInfo id (isProviderAvailable env id) (Some m)) ∧
    getDefaultModel id = inr (Own m).
Proof.
  unfold KNOWN_PROVIDERS. intros H.
  repeat (apply elem_of_cons in H as [-> | H];
          [eexists; split; reflexivity |]).
  by apply elem_of_nil in H.
Qed.

(** X2.  Looking up a known provider gives the entry of that name: its
    [available] is what [isProviderAvailable] answers and its
    [defaultModel] is what [getDefaultModel] returns. *)
Theorem provider_info_of_known (env : Env) (id : string) :
  id ∈ KNOWN_PROVIDERS →
  ∃ m : string,
    getProviderInfo env id
      = Some (mkProviderInfo id (isProviderAvailable env id) (Some m)) ∧
    getDefaultModel id = inr (Own m).
Proof. apply known_provider_info. Qed.

Lemma provider_info_of_known_witness :
  ∃ m : string,
    getProviderInfo env_openai_gemini "openai"
      = Some (mkProviderInfo "openai"
                (isProviderAvailable env_openai_gemini "openai") (Some m)) ∧
    getDefaultModel "openai" = inr (Own m).
Proof.
  apply (provider_info_of_known env_openai_gemini "openai"). compute_done.
Defined.

(** X3.  The resolver and the selector see the environment only through
    the truthiness of the eight credential variables: two environments
    that agree there give the same provider list, the same availability
    and the same selection, console lines included.  The value of a
    credential and every other variable are irrelevant. *)
Theorem environment_read_through_credentials (env env' : Env) :
  (∀ name, name ∈ CREDENTIAL_VARIABLES →
           env_flag env name = env_flag env' name) →
  getAllProviders env = getAllProviders env' ∧
  (∀ id, isProviderAvailable env id = isProviderAvailable env' id) ∧
  getAvailableProviders env = getAvailableProviders env' ∧
  (∀ t cur, getNextAvailableProvider env t cur
            = getNextAvailableProvider env' t cur).
Proof.
  intros H.
  assert (Hflag : ∀ i name, CREDENTIAL_VARIABLES !! i = Some name →
                            env_flag env name = env_flag env' name).
  { intros i name Hi. apply H, list_elem_of_lookup. by exists i. }
  assert (Hall : getAllProviders env = getAllProviders env').
  { unfold getAllProviders.
    rewrite (Hflag 0%nat _ eq_refl), (Hflag 1%nat _ eq_refl),
      (Hflag 2%nat _ eq_refl), (Hflag 3%nat _ eq_refl),
      (Hflag 4%nat _ eq_refl), (Hflag 5%nat _ eq_refl),
      (Hflag 6%nat _ eq_refl), (Hflag 7%nat _ eq_refl).
    reflexivity. }
  split_and!; [exact Hall | | |].
  - intros id. unfold isProviderAvailable, getProviderInfo. by rewrite Hall.
  - unfold getAvailableProviders. by rewrite Hall.
  - intros t cur. unfold getNextAvailableProvider. by rewrite Hall.
Qed.

Lemma environment_read_through_credentials_witness :
  getAllProviders env_openai_gemini
    = getAllProviders
        (list_to_map [("OPENAI_API_KEY", "other"); ("GEMINI_API_KEY", "x");
                      ("HOME", "/root")]) ∧
  (∀ id, isProviderAvailable env_openai_gemini id
         = isProviderAvailable
             (list_to_map [("OPENAI_API_KEY", "other"); ("GEMINI_API_KEY", "x");
                           ("HOME", "/root")]) id) ∧
  getAvailableProviders env_openai_gemini
    = getAvailableProviders
        (list_to_map [("OPENAI_API_KEY", "other"); ("GEMINI_API_KEY", "x");
                      ("HOME", "/root")]) ∧
  (∀ t cur, getNextAvailableProvider env_openai_gemini t cur
            = getNextAvailableProvider
                (list_to_map [("OPENAI_API_KEY", "other");
                              ("GEMINI_API_KEY", "x"); ("HOME", "/root")])
                t cur).
Proof.
  apply (environment_read_through_credentials env_openai_gemini
           (list_to_map [("OPENAI_API_KEY", "other"); ("GEMINI_API_KEY", "x");
                         ("HOME", "/root")])).
  unfold CREDENTIAL_VARIABLES. intros name Hn.
  repeat (apply elem_of_cons in Hn as [-> | Hn]; [reflexivity |]).
  by apply elem_of_nil in Hn.
Defined.

(** ** The selector *)

Section SelectorFacts.

Lemma registered_of_result env t cur p :
  selectNext env t cur = inr (Some p) →
  ∃ l, PROVIDER_PREFERENCE !! t = Some l.
Proof.
  unfold selectNext, getNextAvailableProvider, readProperty.
  destruct (PROVIDER_PREFERENCE !! t) as [l|]; [by eexists |].
  destruct (inheritedMember t); [destruct (truthy_opt cur) |];
    intros H; discriminate H.
Qed.

Lemma startIndex_bounds l cur : (0 ≤ startIndex l cur)%Z.
Proof.
  unfold startIndex. destruct (truthy_opt cur); [| lia].
  assert (-1 ≤ indexOf l (default EmptyString cur))%Z; [| lia].
  induction l as [|y l IH]; simpl; [lia |].
  destruct (String.eqb y _); [lia |].
  destruct (Z.ltb_spec (indexOf l (default EmptyString cur)) 0); lia.
Qed.

Lemma NoDup_first_occurrence (l : list Provider) (i : nat) p :
  NoDup l → l !! i = Some p →
  ∀ j : nat, (j < i)%nat → l !! j ≠ Some p.
Proof.
  intros Hnd Hi j Hj Hlj. pose proof (NoDup_lookup l i j p Hnd Hi Hlj). lia.
Qed.

(** With a listed current provider the scan covers [l[i+1..]]. *)
Lemma selectNext_listed env t l p (i : nat) :
  PROVIDER_PREFERENCE !! t = Some l → l !! i = Some p →
  selectNext env t (Some p)
    = inr (snd (scanProviders (getAllProviders env) (drop (S i) l))).
Proof.
  intros Ht Hi. rewrite (selectNext_registered env t l (Some p) Ht).
  pose proof (preference_lists t l Ht) as (Hnd & _ & _).
  rewrite (startIndex_listed l p i); [by rewrite Nat2Z.id | | done |].
  - apply (listed_truthy t l); [done |]. apply list_elem_of_lookup. eauto.
  - by apply NoDup_first_occurrence.
Qed.

Lemma apizh_variant_available env v :
  v ∈ KNOWN_PROVIDERS → String.prefix "apizh-" v = true →
  isProviderAvailable env v = env_flag env "APIZH_API_KEY".
Proof.
  unfold KNOWN_PROVIDERS. intros H Hv.
  repeat (apply elem_of_cons in H as [-> | H];
          [first [discriminate Hv | reflexivity] |]).
  by apply elem_of_nil in H.
Qed.

Lemma preference_lists_shape t l :
  PROVIDER_PREFERENCE !! t = Some l →
  (∃ v, head l = Some v ∧ String.prefix "apizh-" v = true) ∧
  last l = Some "apizh".
Proof.
  unfold PROVIDER_PREFERENCE. intros H. apply elem_of_list_to_map_2 in H.
  repeat (apply elem_of_cons in H as [[= _ ->] | H];
          [ split; [eexists; split; reflexivity | reflexivity] |]).
  by apply elem_of_nil in H.
Qed.

(** Where the scan stops, the lines printed are those of the candidates
    before it; when it stops nowhere, those of all candidates. *)
Lemma scan_lines_Some infos cs q :
  snd (scanProviders infos cs) = Some q →
  ∃ j : nat, cs !! j = Some q ∧
    fst (scanProviders infos cs) = map notAvailableLine (take j cs).
Proof.
  induction cs as [|c cs IH]; [done |].
  rewrite scan_cons. simpl. fold (usable infos c).
  destruct (usable infos c).
  - intros [= <-]. by exists 0%nat.
  - intros H. destruct (IH H) as (j & Hj & Hl). exists (S j).
    split; [done |]. destruct (scanProviders infos cs). simpl in *.
    by rewrite Hl.
Qed.

Lemma scan_lines_None infos cs :
  snd (scanProviders infos cs) = None →
  fst (scanProviders infos cs) = map notAvailableLine cs.
Proof.
  induction cs as [|c cs IH]; [done |].
  rewrite scan_cons. simpl. fold (usable infos c).
  destruct (usable infos c); [done |].
  intros H. specialize (IH H). destruct (scanProviders infos cs).
  simpl in *. by rewrite IH.
Qed.

End SelectorFacts.

(** X4.  A provider the selector returns is one of the command type's
    preference list, is available in the environment, and is a known
    provider: [getProviderInfo] finds it and [getDefaultModel] gives its
    model. *)
Theorem selection_sound (env : Env) (t : string) (cur : option Provider)
    (p : Provider) :
  selectNext env t cur = inr (Some p) →
  ∃ (l : list Provider) (m : string),
    PROVIDER_PREFERENCE !! t = Some l ∧
    p ∈ l ∧
    isProviderAvailable env p = true ∧
    getDefaultModel p = inr (Own m) ∧
    getProviderInfo env p = Some (mkProviderInfo p true (Some m)).
Proof.
  intros H. destruct (registered_of_result env t cur _ H) as [l Ht].
  rewrite (selectNext_registered env t l cur Ht) in H. injection H as H.
  apply scan_Some in H as (j & Hj & Hp & _).
  rewrite lookup_drop in Hj. rewrite usable_available in Hp.
  assert (Hin : p ∈ l) by (apply list_elem_of_lookup; eauto).
  pose proof (preference_lists t l Ht) as (_ & _ & Hk).
  rewrite Forall_forall in Hk.
  destruct (known_provider_info env p (Hk p Hin)) as (m & Hinfo & Hm).
  exists l, m. rewrite Hp in Hinfo. by split_and!.
Qed.

Lemma selection_sound_witness :
  ∃ (l : list Provider) (m : string),
    PROVIDER_PREFERENCE !! "ask" = Some l ∧
    "gemini" ∈ l ∧
    isProviderAvailable env_openai_gemini "gemini" = true ∧
    getDefaultModel "gemini" = inr (Own m) ∧
    getProviderInfo env_openai_gemini "gemini"
      = Some (mkProviderInfo "gemini" true (Some m)).
Proof.
  apply (selection_sound env_openai_gemini "ask" (Some "openai") "gemini").
  reflexivity.
Defined.

(** X5.  After a listed current provider at index [i] the selector returns
    the first available provider behind it: every provider between index
    [i] and the one returned is unavailable, and it returns [undefined]
    only when every provider behind index [i] is unavailable.  It never
    throws. *)
Theorem next_after_current (env : Env) (t : string) (l : list Provider)
    (p : Provider) (i : nat) :
  PROVIDER_PREFERENCE !! t = Some l →
  l !! i = Some p →
  (∃ r, selectNext env t (Some p) = inr r) ∧
  (∀ q, selectNext env t (Some p) = inr (Some q) →
     ∃ j : nat, (i < j)%nat ∧ l !! j = Some q ∧
       isProviderAvailable env q = true ∧
       ∀ (k : nat) r, (i < k < j)%nat → l !! k = Some r →
                      isProviderAvailable env r = false) ∧
  (selectNext env t (Some p) = inr None →
     ∀ (k : nat) r, (i < k)%nat → l !! k = Some r →
                    isProviderAvailable env r = false).
Proof.
  intros Ht Hi. rewrite (selectNext_listed env t l p i Ht Hi).
  split_and!; [by eexists | |].
  - intros q [= Hq]. apply scan_Some in Hq as (j & Hj & Hav & Hmin).
    rewrite lookup_drop in Hj. exists (S i + j)%nat.
    split_and!; [lia | done | done |].
    intros k r Hk Hr.
    destruct (isProviderAvailable env r) eqn:Hr'; [| done].
    assert (drop (S i) l !! (k - S i)%nat = Some r) as Hd.
    { rewrite lookup_drop. by replace (S i + (k - S i))%nat with k by lia. }
    specialize (Hmin _ r Hd Hr'). lia.
  - intros [= Hnone] k r Hk Hr. rewrite scan_None in Hnone.
    apply Hnone. apply list_elem_of_lookup. exists (k - S i)%nat.
    rewrite lookup_drop. by replace (S i + (k - S i))%nat with k by lia.
Qed.

Lemma next_after_current_witness :
  (∃ r, selectNext env_openai_gemini "ask" (Some "openai") = inr r) ∧
  (∀ q, selectNext env_openai_gemini "ask" (Some "openai") = inr (Some q) →
     ∃ j : nat, (1 < j)%nat ∧
       ["apizh-cost"; "openai"; "modelbox"; "openrouter"; "gemini";
        "anthropic"; "perplexity"; "apizh"] !! j = Some q ∧
       isProviderAvailable env_openai_gemini q = true ∧
       ∀ (k : nat) r, (1 < k < j)%nat →
         ["apizh-cost"; "openai"; "modelbox"; "openrouter"; "gemini";
          "anthropic"; "perplexity"; "apizh"] !! k = Some r →
         isProviderAvailable env_openai_gemini r = false) ∧
  (selectNext env_openai_gemini "ask" (Some "openai") = inr None →
     ∀ (k : nat) r, (1 < k)%nat →
       ["apizh-cost"; "openai"; "modelbox"; "openrouter"; "gemini";
        "anthropic"; "perplexity"; "apizh"] !! k = Some r →
       isProviderAvailable env_openai_gemini r = false).
Proof.
  apply (next_after_current env_openai_gemini "ask"
           ["apizh-cost"; "openai"; "modelbox"; "openrouter"; "gemini";
            "anthropic"; "perplexity"; "apizh"] "openai" 1);
    reflexivity.
Defined.

(** X6.  The selector prints one "Provider ... is not available" line for
    each candidate it passes over, in list order, and none for the provider
    it returns: the lines are those of the candidates from the start index
    up to the returned one, or of all candidates from the start index when
    it returns [undefined]. *)
Theorem skipped_candidates_logged (env : Env) (t : string)
    (l : list Provider) (cur : option Provider) :
  PROVIDER_PREFERENCE !! t = Some l →
  (∀ q, selectNext env t cur = inr (Some q) →
     ∃ j : nat,
       drop (Z.to_nat (startIndex l cur)) l !! j = Some q ∧
       fst (getNextAvailableProvider env t cur)
         = map notAvailableLine
             (take j (drop (Z.to_nat (startIndex l cur)) l))) ∧
  (selectNext env t cur = inr None →
     fst (getNextAvailableProvider env t cur)
       = map notAvailableLine (drop (Z.to_nat (startIndex l cur)) l)).
Proof.
  intros Ht. rewrite (selectNext_registered env t l cur Ht).
  rewrite (getNext_registered env t l cur Ht). cbn [fst].
  split.
  - intros q [= Hq]. by apply scan_lines_Some.
  - intros [= Hnone]. by apply scan_lines_None.
Qed.

Lemma skipped_candidates_logged_witness :
  fst (getNextAvailableProvider env_openai_gemini "ask" (Some "gemini"))
    = ["Provider anthropic is not available";
       "Provider perplexity is not available";
       "Provider apizh is not available"].
Proof.
  destruct (skipped_candidates_logged env_openai_gemini "ask"
              ["apizh-cost"; "openai"; "modelbox"; "openrouter"; "gemini";
               "anthropic"; "perplexity"; "apizh"] (Some "gemini") eq_refl)
    as [_ H].
  rewrite H; reflexivity.
Defined.

(** X7.  Making more providers available never pushes the selection back:
    if every provider available in [env] is available in [env'], then
    where the selector returned the provider at index [i] of the list in
    [env], in [env'] it returns a provider at an index no greater than
    [i]; in particular it does not turn to [undefined]. *)
Theorem more_credentials_select_earlier (env env' : Env) (t : string)
    (l : list Provider) (cur : option Provider) (p : Provider) (i : nat) :
  PROVIDER_PREFERENCE !! t = Some l →
  (∀ id, isProviderAvailable env id = true →
         isProviderAvailable env' id = true) →
  selectNext env t cur = inr (Some p) →
  l !! i = Some p →
  ∃ (q : Provider) (j : nat),
    selectNext env' t cur = inr (Some q) ∧ l !! j = Some q ∧ (j ≤ i)%nat.
Proof.
  intros Ht Hmono Hsel Hi.
  rewrite (selectNext_registered env t l cur Ht) in Hsel.
  rewrite (selectNext_registered env' t l cur Ht).
  injection Hsel as Hsel.
  set (s := Z.to_nat (startIndex l cur)) in *.
  apply scan_Some in Hsel as (j0 & Hj0 & Hav & _).
  pose proof (preference_lists t l Ht) as (Hnd & _ & _).
  pose proof Hj0 as Hl0. rewrite lookup_drop in Hl0.
  assert (i = s + j0)%nat as -> by (apply (NoDup_lookup l _ _ p Hnd Hi Hl0)).
  destruct (snd (scanProviders (getAllProviders env') (drop s l)))
    as [q|] eqn:Hscan.
  - apply scan_Some in Hscan as (j1 & Hj1 & _ & Hmin).
    exists q, (s + j1)%nat. rewrite lookup_drop in Hj1.
    split_and!; [done | done |].
    assert (j1 ≤ j0)%nat; [| lia].
    apply (Hmin j0 p Hj0). rewrite usable_available in *. by apply Hmono.
  - exfalso. rewrite scan_None in Hscan.
    assert (usable (getAllProviders env') p = false) as Hp.
    { apply Hscan, list_elem_of_lookup. eauto. }
    rewrite usable_available in *. apply Hmono in Hav. congruence.
Qed.

Lemma more_credentials_select_earlier_witness :
  ∃ (q : Provider) (j : nat),
    selectNext (<["APIZH_API_KEY" := "k"]> env_openai_gemini) "ask" None
      = inr (Some q) ∧
    ["apizh-cost"; "openai"; "modelbox"; "openrouter"; "gemini";
     "anthropic"; "perplexity"; "apizh"] !! j = Some q ∧ (j ≤ 1)%nat.
Proof.
  apply (more_credentials_select_earlier env_openai_gemini
           (<["APIZH_API_KEY" := "k"]> env_openai_gemini) "ask"
           ["apizh-cost"; "openai"; "modelbox"; "openrouter"; "gemini";
            "anthropic"; "perplexity"; "apizh"] None "openai" 1).
  - reflexivity.
  - intros id Hid.
    destruct (getProviderInfo env_openai_gemini id) as [info|] eqn:Hinfo.
    + apply findProvider_Some in Hinfo as [Hin <-].
      unfold getAllProviders in Hin.
      repeat (apply elem_of_cons in Hin as [-> | Hin];
              [first [reflexivity | discriminate Hid] |]).
      by apply elem_of_nil in Hin.
    + unfold isProviderAvailable in Hid. rewrite Hinfo in Hid.
      discriminate Hid.
  - reflexivity.
  - reflexivity.
Defined.

(** X8.  Every registered preference list is free of duplicates, names
    known providers only, begins with an [apizh-*] variant and ends with
    the generic [apizh]. *)
Theorem preference_table_integrity (t : string) (l : list Provider) :
  PROVIDER_PREFERENCE !! t = Some l →
  NoDup l ∧
  Forall (λ p, p ∈ KNOWN_PROVIDERS) l ∧
  (∃ v, head l = Some v ∧ String.prefix "apizh-" v = true) ∧
  last l = Some "apizh".
Proof.
  intros Ht. pose proof (preference_lists t l Ht) as (Hnd & _ & Hk).
  pose proof (preference_lists_shape t l Ht) as [Hhead Hlast].
  by split_and!.
Qed.

Lemma preference_table_integrity_witness :
  NoDup ["apizh-web"; "perplexity"; "gemini"; "modelbox"; "openrouter";
         "apizh"] ∧
  Forall (λ p, p ∈ KNOWN_PROVIDERS)
    ["apizh-web"; "perplexity"; "gemini"; "modelbox"; "openrouter";
     "apizh"] ∧
  (∃ v, head ["apizh-web"; "perplexity"; "gemini"; "modelbox";
              "openrouter"; "apizh"] = Some v
        ∧ String.prefix "apizh-" v = true) ∧
  last ["apizh-web"; "perplexity"; "gemini"; "modelbox"; "openrouter";
        "apizh"] = Some "apizh".
Proof. apply (preference_table_integrity "web"). reflexivity. Defined.

(** X9.  The [apizh] credential decides both ends of every fallback chain.
    After [apizh], the last entry of every list, the selector returns
    [undefined] in any environment.  With [APIZH_API_KEY] set, the selector
    called without a current provider returns the first entry of the list,
    and called with any other listed provider it returns a provider, never
    [undefined]. *)
Theorem apizh_ends_of_chain (env : Env) (t : string) (l : list Provider) :
  PROVIDER_PREFERENCE !! t = Some l →
  selectNext env t (Some "apizh") = inr None ∧
  (env_flag env "APIZH_API_KEY" = true →
   (∃ v, head l = Some v ∧ selectNext env t None = inr (Some v)) ∧
   (∀ cur, cur ∈ l → cur ≠ "apizh" →
           ∃ q, selectNext env t (Some cur) = inr (Some q))).
Proof.
  intros Ht.
  pose proof (preference_lists t l Ht) as (Hnd & _ & Hk).
  pose proof (preference_lists_shape t l Ht) as [(v & Hv & Hpre) Hlast].
  rewrite Forall_forall in Hk. rewrite last_lookup in Hlast.
  split.
  - rewrite (selectNext_listed env t l "apizh" _ Ht Hlast).
    rewrite drop_ge; [done |].
    apply lookup_lt_Some in Hlast. lia.
  - intros Hflag. split.
    + exists v. split; [done |].
      rewrite (selectNext_registered env t l None Ht), startIndex_omitted.
      change (drop (Z.to_nat 0) l) with l.
      destruct l as [|v' l']; [done |]. injection Hv as ->.
      rewrite scan_cons, usable_available.
      rewrite (apizh_variant_available env v); [by rewrite Hflag | | done].
      apply Hk. left.
    + intros cur Hcur Hne.
      apply list_elem_of_lookup in Hcur as [i Hi].
      rewrite (selectNext_listed env t l cur i Ht Hi).
      destruct (snd (scanProviders (getAllProviders env) (drop (S i) l)))
        as [q|] eqn:Hscan; [by exists q |].
      exfalso. rewrite scan_None in Hscan.
      assert (i ≠ pred (length l)) as Hi'.
      { intros ->. congruence. }
      pose proof (lookup_lt_Some _ _ _ Hi) as Hlt.
      assert (usable (getAllProviders env) "apizh" = false) as Hz.
      { apply Hscan, list_elem_of_lookup.
        exists (pred (length l) - S i)%nat. rewrite lookup_drop.
        by replace (S i + (pred (length l) - S i))%nat
          with (pred (length l)) by lia. }
      rewrite usable_available in Hz.
      change (isProviderAvailable env "apizh")
        with (env_flag env "APIZH_API_KEY") in Hz.
      congruence.
Qed.

Lemma apizh_ends_of_chain_witness :
  selectNext (<["APIZH_API_KEY" := "k"]> ∅) "repo" (Some "apizh") = inr None ∧
  (∃ v, head ["apizh-analysis"; "gemini"; "modelbox"; "openrouter"; "openai";
              "perplexity"; "anthropic"; "xai"; "apizh"] = Some v
        ∧ selectNext (<["APIZH_API_KEY" := "k"]> ∅) "repo" None
          = inr (Some v)) ∧
  (∀ cur,
     cur ∈ ["apizh-analysis"; "gemini"; "modelbox"; "openrouter"; "openai";
            "perplexity"; "anthropic"; "xai"; "apizh"] →
     cur ≠ "apizh" →
     ∃ q, selectNext (<["APIZH_API_KEY" := "k"]> ∅) "repo" (Some cur)
          = inr (Some q)).
Proof.
  destruct (apizh_ends_of_chain (<["APIZH_API_KEY" := "k"]> ∅) "repo"
              ["apizh-analysis"; "gemini"; "modelbox"; "openrouter"; "openai";
               "perplexity"; "anthropic"; "xai"; "apizh"] eq_refl)
    as [Hend Hset].
  split; [exact Hend | apply Hset; reflexivity].
Defined.

(** ** [AskCommand]: queries, models and outcomes *)

Section StringFacts.

Lemma string_app_cons (x : ascii) (a b : string) :
  (String x a ++ b = String x (a ++ b))%string.
Proof. reflexivity. Qed.

Lemma string_app_assoc (a b c : string) :
  ((a ++ b) ++ c = a ++ (b ++ c))%string.
Proof.
  induction a as [|x a IH]; [reflexivity |].
  rewrite !string_app_cons. by rewrite IH.
Qed.

Lemma string_length_app (a b : string) :
  String.length (a ++ b) = (String.length a + String.length b)%nat.
Proof.
  induction a as [|x a IH]; [reflexivity |].
  rewrite string_app_cons. simpl. by rewrite IH.
Qed.

Lemma or_else_truthy (a b : option string) :
  truthy_opt b = true → truthy_opt (or_else a b) = true.
Proof. unfold or_else. by destruct (truthy_opt a) eqn:Ha. Qed.

Lemma default_truthy (d : string) (o : option string) :
  truthy_opt o = true → truthy (default d o) = true.
Proof. by destruct o. Qed.

End StringFacts.

(** X10.  [escapeBackticks] puts two backslashes before every backtick and
    changes nothing else: the result is longer by twice the number of
    backticks, a string without backticks is returned as it is, and
    escaping a concatenation is concatenating the escapes. *)
Theorem escapeBackticks_spec (s1 s2 : string) :
  String.length (escapeBackticks s1)
    = (String.length s1 + 2 * countBackticks s1)%nat ∧
  (countBackticks s1 = 0%nat → escapeBackticks s1 = s1) ∧
  (escapeBackticks (s1 ++ s2)
     = escapeBackticks s1 ++ escapeBackticks s2)%string.
Proof.
  split_and!.
  - induction s1 as [|c r IH]; [done |]. simpl.
    destruct (Ascii.eqb c "`").
    + rewrite string_length_app. simpl. rewrite IH. lia.
    + simpl. rewrite IH. lia.
  - induction s1 as [|c r IH]; [done |]. simpl.
    destruct (Ascii.eqb c "`"); [done |]. intros H. by rewrite IH.
  - induction s1 as [|c r IH]; [reflexivity |].
    rewrite string_app_cons. simpl.
    destruct (Ascii.eqb c "`").
    + by rewrite IH, string_app_assoc.
    + by rewrite IH.
Qed.

Lemma escapeBackticks_spec_witness :
  escapeBackticks "let x = 1" = "let x = 1" ∧
  escapeBackticks "run `ls` now" = "run \\`ls\\` now".
Proof.
  destruct (escapeBackticks_spec "let x = 1" EmptyString) as (_ & Hsame & _).
  split; [apply Hsame; reflexivity | reflexivity].
Defined.

Section AskFacts.

Variable env : Env.
Variable config_apizh_provider : option string.
Variable config_reasoningEffort : option string.
Variable defaultMaxTokens : nat.
Variable createProvider : string → Thrown + ProviderClient.
Variable fetchDocContent : string → bool → Thrown + string.
Variable trim : string → string.

Local Abbreviation ask_execute :=
  (AskCommand.execute env config_apizh_provider config_reasoningEffort
     defaultMaxTokens createProvider fetchDocContent trim).
Local Abbreviation ask_providerName :=
  (AskCommand.providerName config_apizh_provider).
Local Abbreviation ask_resolveModel :=
  (AskCommand.resolveModel defaultMaxTokens createProvider).
Local Abbreviation ask_fetchDocs := (AskCommand.fetchDocs fetchDocContent trim).
Local Abbreviation ask_finalQuery := (AskCommand.finalQuery fetchDocContent trim).
Local Abbreviation ask_modelOptions :=
  (AskCommand.modelOptions config_reasoningEffort defaultMaxTokens).

(** What is left of the body once the three guards are passed. *)
Lemma execute_after_guards (query : string) (options : option CommandOptions) :
  isProviderAvailable env (ask_providerName options) = true →
  ask_execute query options =
    match ask_resolveModel (ask_providerName options) options with
    | inl e => Throw e
    | inr model =>
        match createProvider (ask_providerName options) with
        | inl e => Throw e
        | inr client =>
            match executePrompt client (ask_finalQuery query options)
                    (ask_modelOptions model options) with
            | inl error => Throw (AskCommand.providerErrorOf error)
            | inr answer =>
                AskCommand.trackTelemetry options
                  (AskCommand.telemetryData client
                     (ask_providerName options) model)
                  (Yield answer Return)
            end
        end
    end.
Proof.
  intros Hav.
  apply (available_listed env) in Hav as (info & Hfind & Havail & Hne).
  unfold AskCommand.execute.
  destruct (Nat.eqb_spec
    (length (List.filter (fun p => available p) (getAllProviders env))) 0)
    as [Hlen | _].
  { exfalso. apply Hne. apply length_zero_iff_nil, Hlen. }
  rewrite Hfind, Havail. cbn [negb]. reflexivity.
Qed.

Lemma execute_guarded (query : string) (options : option CommandOptions) :
  isProviderAvailable env (ask_providerName options) = false →
  ∃ msg, ask_execute query options = Throw (ProviderError msg JsUndefined).
Proof.
  intros H. unfold AskCommand.execute.
  destruct (Nat.eqb_spec
    (length (List.filter (fun p => available p) (getAllProviders env))) 0)
    as [_ | Hlen]; [by eexists |].
  unfold isProviderAvailable, getProviderInfo in H.
  destruct (findProvider (getAllProviders env)
              (AskCommand.providerName config_apizh_provider options))
    as [info|]; [| by eexists].
  cbn [info_available] in H. rewrite H. cbn [negb]. by eexists.
Qed.

(** X11.  Whatever the options, the configuration, the environment and the
    collaborators do, [AskCommand.execute] ends in one of two ways: it
    throws without having yielded anything, or it yields exactly one chunk
    and completes.  It never yields two chunks and never throws after a
    chunk. *)
Theorem ask_one_chunk_or_throw (query : string)
    (options : option CommandOptions) :
  (∃ e, chunks (ask_execute query options) = [] ∧
        terminal (ask_execute query options) = Rejected e) ∨
  (∃ answer, chunks (ask_execute query options) = [answer] ∧
             terminal (ask_execute query options) = Done).
Proof.
  destruct (isProviderAvailable env (ask_providerName options)) eqn:Hav.
  - rewrite (execute_after_guards query options Hav).
    destruct (ask_resolveModel _ _) as [e | model]; [left; by exists e |].
    destruct (createProvider _) as [e | client]; [left; by exists e |].
    destruct (executePrompt _ _ _) as [e | answer]; [left; by eexists |].
    unfold AskCommand.trackTelemetry.
    destruct (options ≫= opt_trackTelemetry) as [sink|];
      [| right; by exists answer].
    destruct (sink _) as [e |]; [left; by eexists | right; by exists answer].
  - destruct (execute_guarded query options Hav) as [msg ->].
    left. by eexists.
Qed.

(** X12.  Once the guards are passed, an error of the provider call is
    thrown as a [ProviderError] that carries the original value and, for an
    [Error], its message; an error of [createProvider] or of the model
    selection is thrown as it is, without a [ProviderError] around it. *)
Theorem ask_error_provenance (query : string)
    (options : option CommandOptions) (e : Thrown) :
  isProviderAvailable env (ask_providerName options) = true →
  (ask_resolveModel (ask_providerName options) options = inl e →
   ask_execute query options = Throw e) ∧
  (∀ model,
     ask_resolveModel (ask_providerName options) options = inr model →
     createProvider (ask_providerName options) = inl e →
     ask_execute query options = Throw e) ∧
  (∀ model client,
     ask_resolveModel (ask_providerName options) options = inr model →
     createProvider (ask_providerName options) = inr client →
     executePrompt client (ask_finalQuery query options)
       (ask_modelOptions model options) = inl e →
     ask_execute query options
       = Throw (ProviderError
                  (if instanceofError e then message e
                   else "Unknown error during ask command execution") e)).
Proof.
  intros Hav. rewrite (execute_after_guards query options Hav).
  split_and!.
  - by intros ->.
  - by intros model -> ->.
  - by intros model client -> -> ->.
Qed.

(** X13.  The provider name is the [provider] option when that is a
    non-empty string, else the configured one when that is a non-empty
    string, else ["apizh"]; it is never the empty string. *)
Theorem ask_provider_name (options : option CommandOptions) :
  truthy (ask_providerName options) = true ∧
  (∀ p, options ≫= opt_provider = Some p → truthy p = true →
        ask_providerName options = p) ∧
  (truthy_opt (options ≫= opt_provider) = false →
   ∀ c, config_apizh_provider = Some c → truthy c = true →
        ask_providerName options = c) ∧
  (truthy_opt (options ≫= opt_provider) = false →
   truthy_opt config_apizh_provider = false →
   ask_providerName options = "apizh").
Proof.
  unfold AskCommand.providerName. split_and!.
  - by apply default_truthy, or_else_truthy.
  - intros p -> Hp. unfold or_else.
    do 2 (cbn [truthy_opt]; rewrite ?Hp). reflexivity.
  - intros Ho c -> Hc. unfold or_else. rewrite Ho.
    do 2 (cbn [truthy_opt]; rewrite ?Hc). reflexivity.
  - intros Ho Hc. unfold or_else. rewrite Ho, Hc. reflexivity.
Qed.

End AskFacts.

Lemma ask_error_provenance_witness :
  AskCommand.execute env_openai_gemini None None 100
    (fun _ => inr failing_client) sample_fetch sample_trim "hi"
    (Some sample_options)
  = Throw (ProviderError "quota exceeded" (JsError "quota exceeded")).
Proof.
  destruct (ask_error_provenance env_openai_gemini None None 100
              (fun _ => inr failing_client) sample_fetch sample_trim "hi"
              (Some sample_options) (JsError "quota exceeded") eq_refl)
    as (_ & _ & H).
  apply (H "gpt-4.1" failing_client); reflexivity.
Defined.

Lemma ask_provider_name_witness :
  AskCommand.providerName (Some "openai") (Some sample_options) = "openai" ∧
  AskCommand.providerName (Some "xai") None = "xai" ∧
  AskCommand.providerName (Some EmptyString) None = "apizh".
Proof.
  split_and!.
  - destruct (ask_provider_name (Some "openai") (Some sample_options))
      as (_ & H & _). apply H; reflexivity.
  - destruct (ask_provider_name (Some "xai") None) as (_ & _ & H & _).
    apply (H eq_refl "xai"); reflexivity.
  - destruct (ask_provider_name (Some EmptyString) None) as (_ & _ & _ & H).
    apply H; reflexivity.
Defined.

Section AskModels.

Variable defaultMaxTokens : nat.
Variable createProvider : string → Thrown + ProviderClient.

Local Abbreviation ask_resolveModel :=
  (AskCommand.resolveModel defaultMaxTokens createProvider).

Lemma resolveModel_no_model (name : string) (options : option CommandOptions) :
  truthy_opt (options ≫= opt_model) = false →
  name ≠ "apizh" →
  ask_resolveModel name options =
    if String.prefix "apizh-" name
    then inr (default "gpt-4o-mini"
                (or_else (AskCommand.apizhModels !! name)
                         (Some "gpt-4o-mini")))
    else inr (default "gpt-4.1"
                (or_else (AskCommand.otherProviderModels !! name)
                         (Some "gpt-4.1"))).
Proof.
  intros Hm Hname. unfold AskCommand.resolveModel, or_else at 1.
  rewrite Hm. simpl.
  by destruct (String.eqb_spec name "apizh").
Qed.

(** X14.  The model [AskCommand] sends: a non-empty [model] option is used
    as given, without asking any collaborator; for a provider other than
    ["apizh"] the choice cannot fail; and whatever is chosen is never the
    empty string. *)
Theorem ask_model_resolution (name : string)
    (options : option CommandOptions) :
  (∀ m, options ≫= opt_model = Some m → truthy m = true →
        ask_resolveModel name options = inr m) ∧
  (name ≠ "apizh" → ∃ m, ask_resolveModel name options = inr m) ∧
  (∀ m, ask_resolveModel name options = inr m → truthy m = true).
Proof.
  split_and!.
  - intros m Hm Ht. unfold AskCommand.resolveModel, or_else.
    rewrite Hm. simpl. rewrite Ht. simpl. rewrite Ht. reflexivity.
  - intros Hname. unfold AskCommand.resolveModel.
    destruct (truthy _); [by eexists |].
    destruct (String.eqb_spec name "apizh"); [done |].
    destruct (String.prefix "apizh-" name); by eexists.
  - intros m. unfold AskCommand.resolveModel.
    destruct (truthy (default EmptyString _)) eqn:Hm; [by intros [= <-] |].
    destruct (String.eqb name "apizh").
    + destruct (createProvider name) as [e | client]; [done |].
      destruct (getModel client _) as [e | r]; [done |].
      intros [= <-]. by apply default_truthy, or_else_truthy.
    + destruct (String.prefix "apizh-" name); intros [= <-];
        by apply default_truthy, or_else_truthy.
Qed.

(** X15.  Without a [model] option, for a known provider other than
    ["apizh"], the model [AskCommand] picks is the registry's default model
    of that provider, except for [apizh-coding], [apizh-nix], [openrouter]
    and [modelbox], where the two differ. *)
Theorem ask_model_against_registry (name : string)
    (options : option CommandOptions) :
  name ∈ KNOWN_PROVIDERS →
  name ≠ "apizh" →
  truthy_opt (options ≫= opt_model) = false →
  ∃ m d : string,
    ask_resolveModel name options = inr m ∧
    getDefaultModel name = inr (Own d) ∧
    (m = d ↔ name ∉ ["apizh-coding"; "apizh-nix"; "openrouter"; "modelbox"]).
Proof.
  intros Hk Hname Hm. rewrite (resolveModel_no_model name options Hm Hname).
  clear Hm. unfold KNOWN_PROVIDERS in Hk.
  repeat (apply elem_of_cons in Hk as [-> | Hk];
    [ first
        [ done
        | eexists _, _; split; [reflexivity |]; split; [reflexivity |];
          split;
          [ first [ intros _; compute_done | intros H; discriminate H ]
          | first [ intros _; reflexivity
                  | intros H; exfalso; apply H; compute_done ] ] ] |]).
  by apply elem_of_nil in Hk.
Qed.

End AskModels.

Lemma ask_model_resolution_witness :
  AskCommand.resolveModel 100 (fun _ => inl (JsError "no client")) "apizh"
    (Some (mkCommandOptions None (Some "o3") None None None None None None))
  = inr "o3" ∧
  (∃ m, AskCommand.resolveModel 100 (fun _ => inl (JsError "no client"))
          "unheard-of" None = inr m).
Proof.
  split.
  - destruct (ask_model_resolution 100 (fun _ => inl (JsError "no client"))
                "apizh"
                (Some (mkCommandOptions None (Some "o3") None None None None
                         None None))) as (H & _ & _).
    apply H; reflexivity.
  - destruct (ask_model_resolution 100 (fun _ => inl (JsError "no client"))
                "unheard-of" None) as (_ & H & _).
    apply H. discriminate.
Defined.

Lemma ask_model_against_registry_witness :
  ∃ m d : string,
    AskCommand.resolveModel 100 (fun _ => inr sample_client) "openrouter" None
      = inr m ∧
    getDefaultModel "openrouter" = inr (Own d) ∧
    (m = d ↔
     "openrouter" ∉ ["apizh-coding"; "apizh-nix"; "openrouter"; "modelbox"]).
Proof.
  apply (ask_model_against_registry 100 (fun _ => inr sample_client)
           "openrouter" None).
  - compute_done.
  - discriminate.
  - reflexivity.
Defined.

Section AskDocuments.

Variable env : Env.
Variable config_apizh_provider : option string.
Variable config_reasoningEffort : option string.
Variable defaultMaxTokens : nat.
Variable createProvider : string → Thrown + ProviderClient.
Variable fetchDocContent : string → bool → Thrown + string.
Variable trim : string → string.

Local Abbreviation ask_execute :=
  (AskCommand.execute env config_apizh_provider config_reasoningEffort
     defaultMaxTokens createProvider fetchDocContent trim).
Local Abbreviation ask_providerName :=
  (AskCommand.providerName config_apizh_provider).
Local Abbreviation ask_resolveModel :=
  (AskCommand.resolveModel defaultMaxTokens createProvider).
Local Abbreviation ask_fetchDocs := (AskCommand.fetchDocs fetchDocContent trim).
Local Abbreviation ask_finalQuery := (AskCommand.finalQuery fetchDocContent trim).
Local Abbreviation ask_modelOptions :=
  (AskCommand.modelOptions config_reasoningEffort defaultMaxTokens).

(** X16.  Each [--with-doc] URL is handled on its own: a URL that is blank,
    fails to load or loads blank text is passed over without affecting the
    others, and the texts kept are, in order, those the non-blank URLs
    loaded.  So the documents of two lists of URLs are the documents of the
    first followed by those of the second, there are never more documents
    than URLs, and every document kept was loaded from a non-blank URL of
    the list and is itself not blank. *)
Theorem fetchDocs_each_url_alone (debug : bool) (urls1 urls2 : list string) :
  ask_fetchDocs debug (urls1 ++ urls2)
    = (ask_fetchDocs debug urls1 ++ ask_fetchDocs debug urls2)%list ∧
  (length (ask_fetchDocs debug urls1) ≤ length urls1)%nat ∧
  ∀ d, d ∈ ask_fetchDocs debug urls1 →
       ∃ url, url ∈ urls1 ∧ truthy (trim url) = true ∧
              fetchDocContent url debug = inr d ∧
              truthy d = true ∧ (0 < String.length (trim d))%nat.
Proof.
  split_and!.
  - induction urls1 as [|u urls1 IH]; [done |]. simpl.
    destruct (truthy (trim u)); simpl; [| done].
    destruct (fetchDocContent u debug) as [e | text]; [done |].
    destruct (truthy text && _); [| done]. simpl. by rewrite IH.
  - induction urls1 as [|u urls1 IH]; [done |]. simpl.
    destruct (truthy (trim u)); simpl; [| lia].
    destruct (fetchDocContent u debug) as [e | text]; [lia |].
    destruct (truthy text && _); simpl; lia.
  - induction urls1 as [|u urls1 IH]; simpl.
    { intros d Hd. by apply elem_of_nil in Hd. }
    intros d.
    assert (Hrest : d ∈ ask_fetchDocs debug urls1 →
      ∃ url, url ∈ u :: urls1 ∧ truthy (trim url) = true ∧
             fetchDocContent url debug = inr d ∧
             truthy d = true ∧ (0 < String.length (trim d))%nat).
    { intros Hd. destruct (IH d Hd) as (url & Hin & Hrest).
      exists url. split; [by right | done]. }
    destruct (truthy (trim u)) eqn:Hu; simpl; [| done].
    destruct (fetchDocContent u debug) as [e | text] eqn:Hf; [done |].
    destruct (truthy text && (0 <? String.length (trim text))%nat) eqn:Hk;
      [| done].
    intros Hd. apply elem_of_cons in Hd as [-> | Hd]; [| by apply Hrest].
    apply andb_true_iff in Hk as [Ht Hlen]. apply Nat.ltb_lt in Hlen.
    exists u. split_and!; [left | done..].
Qed.

(** X17.  The query sent to the provider always ends with the user's
    query: documents are only ever put in front of it.  With no
    [--with-doc] option, with an empty list, or when no URL yields a
    document, the query is sent unchanged. *)
Theorem finalQuery_keeps_question (query : string)
    (options : option CommandOptions) :
  (∃ context, ask_finalQuery query options = (context ++ query)%string) ∧
  (options ≫= opt_withDoc = None ∨ options ≫= opt_withDoc = Some [] →
   ask_finalQuery query options = query) ∧
  (∀ urls, options ≫= opt_withDoc = Some urls →
           ask_fetchDocs (default false (options ≫= opt_debug)) urls = [] →
           ask_finalQuery query options = query).
Proof.
  unfold AskCommand.finalQuery. split_and!.
  - destruct (options ≫= opt_withDoc) as [[|u urls]|];
      [by exists EmptyString | | by exists EmptyString].
    destruct (0 <? length _)%nat; [| by exists EmptyString].
    eexists. rewrite <- !string_app_assoc. reflexivity.
  - by intros [-> | ->].
  - intros urls -> Hnone. destruct urls as [|u urls]; [done |].
    by rewrite Hnone.
Qed.

(** X18.  The telemetry callback is called at most once per run, and
    only after the provider call has succeeded: never when a guard fails,
    when the model or the client cannot be obtained or when the provider
    call fails, and never when no callback is supplied.  When it is called
    it receives the provider name and the model that were used, with the
    token counts when the client reports them.  If it returns, the answer
    is then yielded and the run completes; if it throws, the run yields
    nothing and rejects with a [ProviderError] that carries the value it
    threw. *)
Theorem ask_telemetry (query : string) (options : option CommandOptions) :
  (length (telemetry (ask_execute query options)) ≤ 1)%nat ∧
  (telemetry (ask_execute query options) ≠ [] →
   ∃ sink model client answer,
     options ≫= opt_trackTelemetry = Some sink ∧
     isProviderAvailable env (ask_providerName options) = true ∧
     ask_resolveModel (ask_providerName options) options = inr model ∧
     createProvider (ask_providerName options) = inr client ∧
     executePrompt client (ask_finalQuery query options)
       (ask_modelOptions model options) = inr answer ∧
     telemetry (ask_execute query options)
       = [ AskCommand.telemetryData client (ask_providerName options)
             model ]) ∧
  (∀ model client answer sink,
     isProviderAvailable env (ask_providerName options) = true →
     ask_resolveModel (ask_providerName options) options = inr model →
     createProvider (ask_providerName options) = inr client →
     executePrompt client (ask_finalQuery query options)
       (ask_modelOptions model options) = inr answer →
     options ≫= opt_trackTelemetry = Some sink →
     telemetry (ask_execute query options)
       = [ mkTelemetryData (promptTokens <$> tokenUsage client)
             (completionTokens <$> tokenUsage client)
             (ask_providerName options) model ] ∧
     (sink (AskCommand.telemetryData client (ask_providerName options)
              model) = None →
      chunks (ask_execute query options) = [answer] ∧
      terminal (ask_execute query options) = Done) ∧
     (∀ e,
        sink (AskCommand.telemetryData client (ask_providerName options)
                model) = Some e →
        chunks (ask_execute query options) = [] ∧
        terminal (ask_execute query options)
          = Rejected (ProviderError
                        (if instanceofError e then message e
                         else "Unknown error during ask command execution")
                        e))) ∧
  (options ≫= opt_trackTelemetry = None →
   telemetry (ask_execute query options) = []).
Proof.
  destruct (isProviderAvailable env (ask_providerName options)) eqn:Hav.
  - rewrite (execute_after_guards env config_apizh_provider
               config_reasoningEffort defaultMaxTokens createProvider
               fetchDocContent trim query options Hav).
    unfold AskCommand.trackTelemetry.
    split_and!.
    + destruct (ask_resolveModel _ _) as [e | model]; [simpl; lia |].
      destruct (createProvider _) as [e | client]; [simpl; lia |].
      destruct (executePrompt _ _ _) as [e | answer]; [simpl; lia |].
      destruct (options ≫= opt_trackTelemetry) as [sink|]; [| simpl; lia].
      destruct (sink _); simpl; lia.
    + destruct (ask_resolveModel _ _) as [e | model]; [done |].
      destruct (createProvider _) as [e | client]; [done |].
      destruct (executePrompt _ _ _) as [e | answer] eqn:Hanswer; [done |].
      destruct (options ≫= opt_trackTelemetry) as [sink|]; [| done].
      intros _. exists sink, model, client, answer.
      split_and!; [done.. |].
      by destruct (sink _).
    + intros model client answer sink _ -> -> -> ->.
      split_and!.
      * unfold AskCommand.telemetryData.
        by destruct (tokenUsage client), (sink _).
      * by intros ->.
      * by intros e ->.
    + intros Hnone.
      destruct (ask_resolveModel _ _) as [e | model]; [done |].
      destruct (createProvider _) as [e | client]; [done |].
      destruct (executePrompt _ _ _) as [e | answer]; [done |].
      by rewrite Hnone.
  - destruct (execute_guarded env config_apizh_provider
                config_reasoningEffort defaultMaxTokens createProvider
                fetchDocContent trim query options Hav) as [msg ->].
    split_and!; [simpl; lia | done | intros; discriminate | done].
Qed.

End AskDocuments.

Lemma fetchDocs_each_url_alone_witness :
  AskCommand.fetchDocs sample_fetch sample_trim false
    ["https://a.example/doc"; " "; "https://b.example/doc"]
  = ["use `nix build`"] ∧
  (∃ url, url ∈ ["https://a.example/doc"; " "; "https://b.example/doc"] ∧
     truthy (sample_trim url) = true ∧
     sample_fetch url false = inr "use `nix build`" ∧
     truthy "use `nix build`" = true ∧
     (0 < String.length (sample_trim "use `nix build`"))%nat).
Proof.
  destruct (fetchDocs_each_url_alone sample_fetch sample_trim false
              ["https://a.example/doc"; " "; "https://b.example/doc"] [])
    as (_ & _ & H).
  split; [reflexivity | apply H; left].
Defined.

Lemma finalQuery_keeps_question_witness :
  AskCommand.finalQuery (fun _ _ => inl (JsError "offline")) sample_trim
    "why?" (Some tracked_options) = "why?" ∧
  AskCommand.finalQuery sample_fetch sample_trim "why?" (Some tracked_options)
    = "Document Content:\n```\nuse \\`nix build\\`\n```\n\nQuestion:\nwhy?".
Proof.
  destruct (finalQuery_keeps_question (fun _ _ => inl (JsError "offline"))
              sample_trim "why?" (Some tracked_options)) as (_ & _ & H).
  split; [| reflexivity].
  apply (H ["https://a.example/doc"; " "; "https://b.example/doc"]);
    reflexivity.
Defined.

Lemma ask_telemetry_witness :
  telemetry (AskCommand.execute env_openai_gemini None None 100
               (fun _ => inr metered_client) sample_fetch sample_trim "why?"
               (Some tracked_options))
  = [ mkTelemetryData (Some 12%nat) (Some 34%nat) "gemini" "gemini-2.5-pro" ]
  ∧
  chunks (AskCommand.execute env_openai_gemini None None 100
            (fun _ => inr sample_client) sample_fetch sample_trim "why?"
            (Some throwing_sink_options)) = [] ∧
  terminal (AskCommand.execute env_openai_gemini None None 100
              (fun _ => inr sample_client) sample_fetch sample_trim "why?"
              (Some throwing_sink_options))
    = Rejected (ProviderError "telemetry down" (JsError "telemetry down")).
Proof.
  split.
  - destruct (ask_telemetry env_openai_gemini None None 100
                (fun _ => inr metered_client) sample_fetch sample_trim "why?"
                (Some tracked_options)) as (_ & _ & H & _).
    apply (H "gemini-2.5-pro" metered_client
             "answer to: Document Content:\n```\nuse \\`nix build\\`\n```\n\nQuestion:\nwhy?"
             (fun _ => None));
      reflexivity.
  - destruct (ask_telemetry env_openai_gemini None None 100
                (fun _ => inr sample_client) sample_fetch sample_trim "why?"
                (Some throwing_sink_options)) as (_ & _ & H & _).
    destruct (H "gpt-4.1" sample_client "answer to: why?"
                (fun _ => Some (JsError "telemetry down"))
                eq_refl eq_refl eq_refl eq_refl eq_refl) as (_ & _ & Hthrow).
    apply (Hthrow (JsError "telemetry down")). reflexivity.
Defined.

(** ** The nix commands *)

Section GeneratorFacts.

(** A body whose handler yields a message and returns never throws, and
    yields the body's chunks followed by the handler's message. *)
Lemma tryCatch_yield_terminal (body : Gen) (f : Thrown → string) :
  terminal (tryCatch body (fun e => Yield (f e) Return)) = Done.
Proof. induction body; simpl; auto. Qed.

Lemma tryCatch_yield_chunks (body : Gen) (f : Thrown → string) :
  chunks (tryCatch body (fun e => Yield (f e) Return))
    = (chunks body ++
       match terminal body with Rejected e => [f e] | _ => [] end)%list.
Proof. induction body; simpl; [by f_equal | auto..]. Qed.

End GeneratorFacts.

Section NixUtilsFacts.

Variable trim : string → string.
Variable join : string → string → string.
Variable execAsync : string → option string → Thrown + ExecResult.
Variable fs_access : string → Thrown + unit.

Local Abbreviation detectProjectType :=
  (NixUtils.detectProjectType join fs_access).
Local Abbreviation firstAccessible := (NixUtils.firstAccessible join fs_access).
Local Abbreviation detectGitStatus := (NixUtils.detectGitStatus trim execAsync).
Local Abbreviation detectEnvironment :=
  (NixUtils.detectEnvironment trim join execAsync fs_access).

Lemma firstAccessible_first (projectPath : string)
    (files : list (string * string)) (i : nat) file type :
  files !! i = Some (file, type) →
  (∃ u, fs_access (join projectPath file) = inr u) →
  (∀ (j : nat) file' type', (j < i)%nat → files !! j = Some (file', type') →
     ∃ e, fs_access (join projectPath file') = inl e) →
  firstAccessible projectPath files = type.
Proof.
  revert i. induction files as [|[f t] files IH]; intros i Hi Hok Hbefore.
  { done. }
  destruct i as [|i]; simpl in *.
  - injection Hi as -> ->. by destruct Hok as [u ->].
  - destruct (Hbefore 0%nat f t) as [e ->]; [lia | done |].
    apply (IH i); [done | done |].
    intros j f' t' Hj Hl. apply (Hbefore (S j) f' t'); [lia | done].
Qed.

Lemma firstAccessible_none (projectPath : string)
    (files : list (string * string)) :
  (∀ file type, (file, type) ∈ files →
     ∃ e, fs_access (join projectPath file) = inl e) →
  firstAccessible projectPath files = "Generic".
Proof.
  induction files as [|[f t] files IH]; intros H; [done |]. simpl.
  destruct (H f t) as [e ->]; [left |].
  apply IH. intros file type Hin. apply (H file type). by right.
Qed.

Lemma firstAccessible_range (projectPath : string)
    (files : list (string * string)) :
  firstAccessible projectPath files ∈ "Generic" :: map snd files.
Proof.
  induction files as [|[f t] files IH]; simpl; [left |].
  destruct (fs_access _); [| right; left].
  apply elem_of_cons in IH as [-> | IH]; [left | by do 2 right].
Qed.

(** X19.  [detectProjectType] answers with the type of the first marker
    file, in the order of [checkFiles], that can be accessed in the
    project directory; it answers "Generic" when none can; and its answer
    is always one of eight names. *)
Theorem detectProjectType_first_marker (projectPath : string) :
  (∀ (i : nat) file type,
     NixUtils.checkFiles !! i = Some (file, type) →
     (∃ u, fs_access (join projectPath file) = inr u) →
     (∀ (j : nat) file' type', (j < i)%nat →
        NixUtils.checkFiles !! j = Some (file', type') →
        ∃ e, fs_access (join projectPath file') = inl e) →
     detectProjectType projectPath = type) ∧
  ((∀ file type, (file, type) ∈ NixUtils.checkFiles →
      ∃ e, fs_access (join projectPath file) = inl e) →
   detectProjectType projectPath = "Generic") ∧
  detectProjectType projectPath
    ∈ ["Generic"; "Node.js"; "Python"; "Rust"; "Go"; "Java"; "Ruby"; "PHP"].
Proof.
  split_and!.
  - intros i file type. apply firstAccessible_first.
  - apply firstAccessible_none.
  - pose proof (firstAccessible_range projectPath NixUtils.checkFiles) as H.
    unfold NixUtils.detectProjectType.
    revert H. generalize (firstAccessible projectPath NixUtils.checkFiles).
    intros r H. simpl in H.
    repeat (apply elem_of_cons in H as [-> | H]; [compute_done |]).
    by apply elem_of_nil in H.
Qed.

(** X20.  [detectEnvironment] never fails and keeps its fields coherent:
    a nix version is reported only when nix was found; without a
    [flake.nix] the project type and the three git fields stay undefined,
    with one they are all defined; a file is reported as tracked only
    inside a git repository; [error] is never set. *)
Theorem detectEnvironment_coherent (projectPath : string) :
  let info := detectEnvironment projectPath in
  (is_Some (nixVersion info) → hasNix info = true) ∧
  (hasFlake info = false →
   projectType info = None ∧ hasGit info = None ∧
   flakeTracked info = None ∧ lockTracked info = None) ∧
  (hasFlake info = true →
   projectType info = Some (detectProjectType projectPath) ∧
   is_Some (hasGit info) ∧ is_Some (flakeTracked info) ∧
   is_Some (lockTracked info)) ∧
  (flakeTracked info = Some true ∨ lockTracked info = Some true →
   hasGit info = Some true) ∧
  error info = None ∧
  (hasFlake info = true ↔
   ∃ u, fs_access (join projectPath "flake.nix") = inr u).
Proof.
  unfold NixUtils.detectEnvironment, NixUtils.detectGitStatus.
  destruct (execAsync "which nix" None) as [e | nixCheck];
    [| destruct (truthy (trim (stdout nixCheck)));
       [destruct (execAsync "nix --version" None) |]];
    (destruct (fs_access (join projectPath "flake.nix")) as [e' | u];
     [| destruct (execAsync "git rev-parse --git-dir" (Some projectPath))];
     cbn [nixVersion hasNix hasFlake projectType hasGit flakeTracked
          lockTracked error gs_hasGit gs_flakeTracked gs_lockTracked];
     split_and!; try done; try (by intros [? ?]); try (by eauto);
     try (by intros [? | ?]);
     try (split; [by intros [? ?] | done]);
     try (split; [done | by intros [? ?]]);
     try (split; [eauto | done])).
Qed.

End NixUtilsFacts.

Lemma detectProjectType_first_marker_witness :
  NixUtils.detectProjectType sample_join sample_fs_access "/work" = "Go".
Proof.
  destruct (detectProjectType_first_marker sample_join sample_fs_access
              "/work") as (H & _ & _).
  apply (H 4%nat "go.mod" "Go"); [reflexivity | by exists tt |].
  intros j file' type' Hj Hl.
  do 4 (destruct j as [|j]; [injection Hl as <- <-; by eexists |]). lia.
Defined.

Lemma detectEnvironment_coherent_witness :
  hasFlake (NixUtils.detectEnvironment sample_nix_trim sample_join
              sample_execAsync sample_fs_access "/work") = true ∧
  projectType (NixUtils.detectEnvironment sample_nix_trim sample_join
                 sample_execAsync sample_fs_access "/work") = Some "Go".
Proof.
  destruct (detectEnvironment_coherent sample_nix_trim sample_join
              sample_execAsync sample_fs_access "/work")
    as (_ & _ & Hflake & _ & _ & Hiff).
  assert (hasFlake (NixUtils.detectEnvironment sample_nix_trim sample_join
                      sample_execAsync sample_fs_access "/work") = true) as H.
  { apply Hiff. by exists tt. }
  split; [exact H |]. destruct (Hflake H) as [-> _]. reflexivity.
Defined.

Lemma helpMessage_empty (envInfo : NixEnvironmentInfo) :
  NixUtils.getHelpMessage envInfo = EmptyString ↔
  hasNix envInfo = true ∧ hasFlake envInfo = true ∧
  ¬ (hasGit envInfo = Some true ∧ flakeTracked envInfo ≠ Some true).
Proof.
  destruct envInfo as [n f v t e g ft lt]. unfold NixUtils.getHelpMessage.
  cbn [hasNix hasFlake hasGit flakeTracked].
  destruct n; cbn [negb];
    [| split; [intros H; discriminate H | by intros (H & _ & _)]].
  destruct f; cbn [negb];
    [| split; [intros H; discriminate H | by intros (_ & H & _)]].
  destruct g as [[|]|], ft as [[|]|]; cbn [truthy_bool default andb negb];
    (split;
     [ first [ intros H; discriminate H
             | intros _; split_and!; [done | done | by intros [? ?]] ]
     | first [ done
             | intros (_ & _ & H); exfalso; apply H; by split ] ]).
Qed.

(** X21.  [NixUtils.getHelpMessage] returns the empty string exactly when
    there is nothing to report: nix is installed, a [flake.nix] exists,
    and it is not the case that the project is a git repository in which
    [flake.nix] is untracked.  In every other case it returns a non-empty
    message. *)
Theorem getHelpMessage_empty_iff (envInfo : NixEnvironmentInfo) :
  NixUtils.getHelpMessage envInfo = EmptyString ↔
  hasNix envInfo = true ∧ hasFlake envInfo = true ∧
  ¬ (hasGit envInfo = Some true ∧ flakeTracked envInfo ≠ Some true).
Proof. apply helpMessage_empty. Qed.

Section AssistFacts.

Variable trim : string → string.
Variable join : string → string → string.
Variable execAsync : string → option string → Thrown + ExecResult.
Variable fs_access : string → Thrown + unit.
Variable fs_readFile : string → Thrown + string.
Variable cwd : string.
Variable loadConfig : Thrown + option NixConfig.
Variable createProvider : string → Thrown + ProviderClient.

Local Abbreviation assist_execute :=
  (AssistCommand.execute trim join execAsync fs_access fs_readFile cwd
     loadConfig createProvider).
Local Abbreviation envInfo :=
  (NixUtils.detectEnvironment trim join execAsync fs_access cwd).
Local Abbreviation assist_prompt :=
  (AssistCommand.prompt).
Local Abbreviation assist_context :=
  (AssistCommand.context join execAsync fs_readFile cwd).


(** X23.  [NixCommand.execute] over the real [AssistCommand] never rejects:
    its [catch] and rethrow are never reached.  A blank query is answered
    by [NixCommand]'s own help text, so the usage text of [AssistCommand]
    is not reached through it; any other query is answered by exactly what
    [AssistCommand.execute] yields. *)
Theorem nix_command_never_rejects (query : string)
    (options : CommandOptions) :
  let gen :=
    NixCommand.execute trim NIX_HELP_MESSAGE assist_execute query options in
  terminal gen = Done ∧
  (truthy (trim query) = false → gen = Yield NIX_HELP_MESSAGE Return) ∧
  (truthy (trim query) = true → gen = assist_execute query options) ∧
  ∀ n, ∀ e, Rejected e ∉ pull n gen.
Proof.
  intros gen.
  assert (Hgen : gen = if truthy (trim query)
                       then assist_execute query options
                       else Yield NIX_HELP_MESSAGE Return).
  { unfold gen, NixCommand.execute. destruct (truthy (trim query)); [| done].
    apply tryCatch_yieldStar_rethrow. }
  assert (Hdone : terminal gen = Done).
  { rewrite Hgen. destruct (truthy (trim query)); [| done].
    apply tryCatch_yield_terminal. }
  split_and!; [done | | |].
  - intros Hq. by rewrite Hgen, Hq.
  - intros Hq. by rewrite Hgen, Hq.
  - intros n e. rewrite pull_in_order, Hdone. intros Hin.
    apply subseteq_take in Hin.
    apply elem_of_app in Hin as [Hin | Hin].
    + apply list_elem_of_fmap in Hin as (c & Hc & _). discriminate Hc.
    + apply elem_of_cons in Hin as [Hin | Hin]; [discriminate Hin |].
      apply elem_of_replicate in Hin as [Hin _]. discriminate Hin.
Qed.

End AssistFacts.

Section DevelopFacts.

Variable trim : string → string.
Variable join : string → string → string.
Variable execAsync : string → option string → Thrown + ExecResult.
Variable fs_access : string → Thrown + unit.
Variable cwd : string.

Local Abbreviation develop_execute :=
  (DevelopCommand.execute trim join execAsync fs_access cwd).
Local Abbreviation envInfo :=
  (NixUtils.detectEnvironment trim join execAsync fs_access cwd).
Local Abbreviation nix_develop :=
  (NixUtils.executeNixCommand trim execAsync "develop" []).

(** X24.  [DevelopCommand.execute] never throws and does not look at its
    query or options.  Without nix or without a [flake.nix] it yields one
    chunk, the help message of [NixUtils], which is then not empty, and
    runs no nix command.  Otherwise it yields the opening line, then
    either the failure chunk of the nix command, or the command's standard
    output and standard error, each only when non-empty and in that order,
    followed by the closing text. *)
Theorem develop_outcomes (query : string) (options : CommandOptions) :
  terminal (develop_execute query options) = Done ∧
  (∀ query' options',
     develop_execute query' options' = develop_execute query options) ∧
  (hasNix envInfo = false ∨ hasFlake envInfo = false →
   chunks (develop_execute query options) = [NixUtils.getHelpMessage envInfo]
   ∧ NixUtils.getHelpMessage envInfo ≠ EmptyString) ∧
  (hasNix envInfo = true → hasFlake envInfo = true →
   (∀ e, nix_develop = inl e →
      chunks (develop_execute query options)
        = [ "🔧 进入 Nix 开发环境..." ++ NL;
            "❌ 进入开发环境失败: " ++ errorText e ]) ∧
   (∀ result, nix_develop = inr result →
      chunks (develop_execute query options)
        = ([ ("🔧 进入 Nix 开发环境..." ++ NL)%string ]
           ++ (if truthy (stdout result)
               then [ ("✅ 开发环境输出:" ++ NL ++ stdout result ++ NL)%string ]
               else [])
           ++ (if truthy (stderr result)
               then [ ("⚠️  警告信息:" ++ NL ++ stderr result ++ NL)%string ]
               else [])
           ++ [ DevelopCommand.ready ])%list)).
Proof.
  unfold DevelopCommand.execute. split_and!.
  - apply tryCatch_yield_terminal.
  - reflexivity.
  - intros H. rewrite tryCatch_yield_chunks. cbv zeta.
    assert (NixUtils.getHelpMessage envInfo ≠ EmptyString) as Hne.
    { rewrite helpMessage_empty. intros (Hn & Hf & _).
      destruct H as [H | H]; congruence. }
    split; [| exact Hne].
    destruct (hasNix envInfo); cbn [negb]; [| reflexivity].
    destruct (hasFlake envInfo); cbn [negb]; [| reflexivity].
    destruct H as [H | H]; discriminate H.
  - intros Hn Hf. rewrite tryCatch_yield_chunks. cbv zeta.
    rewrite Hn, Hf. cbn [negb chunks terminal]. split.
    + intros e ->. reflexivity.
    + intros result ->.
      destruct (truthy (stdout result)), (truthy (stderr result));
        reflexivity.
Qed.

End DevelopFacts.

Lemma develop_outcomes_witness :
  chunks (DevelopCommand.execute sample_nix_trim sample_join sample_execAsync
            sample_fs_access "/work" "anything" sample_options)
  = [ "🔧 进入 Nix 开发环境..." ++ NL;
      "✅ 开发环境输出:" ++ NL ++ "shell ready" ++ NL;
      DevelopCommand.ready ] ∧
  chunks (DevelopCommand.execute sample_nix_trim sample_join sample_execAsync
            sample_fs_access "/elsewhere" "anything" sample_options)
  = [ NixUtils.getHelpMessage
        (NixUtils.detectEnvironment sample_nix_trim sample_join
           sample_execAsync sample_fs_access "/elsewhere") ].
Proof.
  split.
  - destruct (develop_outcomes sample_nix_trim sample_join sample_execAsync
                sample_fs_access "/work" "anything" sample_options)
      as (_ & _ & _ & H).
    destruct (H eq_refl eq_refl) as [_ Hok].
    apply (Hok (mkExecResult "shell ready" EmptyString)). reflexivity.
  - destruct (develop_outcomes sample_nix_trim sample_join sample_execAsync
                sample_fs_access "/elsewhere" "anything" sample_options)
      as (_ & _ & H & _).
    apply H. right. reflexivity.
Defined.


Lemma nix_command_never_rejects_witness :
  NixCommand.execute sample_nix_trim NIX_HELP_MESSAGE
    (AssistCommand.execute sample_nix_trim sample_join sample_execAsync
       sample_fs_access (fun _ => inl (JsError "EACCES")) "/work"
       (inl (NonError "bad config")) (fun _ => inr sample_client))
    " " sample_options
  = Yield NIX_HELP_MESSAGE Return.
Proof.
  destruct (nix_command_never_rejects sample_nix_trim sample_join
              sample_execAsync sample_fs_access
              (fun _ => inl (JsError "EACCES")) "/work"
              (inl (NonError "bad config")) (fun _ => inr sample_client)
              " " sample_options) as (_ & H & _).
  apply H. reflexivity.
Defined.

(** ** [AskCommand] and the credentials *)

(** Evaluate the closed variable names of a goal. *)
Ltac eval_names :=
  repeat match goal with
  | |- context [String.prefix ?a ?b] =>
      let r := eval vm_compute in (String.prefix a b) in
      change (String.prefix a b) with r
  | |- context [String.append (toUpperCase ?a) ?b] =>
      let r := eval vm_compute in (String.append (toUpperCase a) b) in
      change (String.append (toUpperCase a) b) with r
  end; cbv iota.

Section CredentialFacts.


Lemma available_by_credential (env : Env) (p : Provider) :
  p ∈ KNOWN_PROVIDERS →
  isProviderAvailable env p =
    env_flag env
      (if String.prefix "apizh" p then "APIZH_API_KEY"
       else toUpperCase p ++ "_API_KEY").
Proof.
  unfold KNOWN_PROVIDERS. intros H.
  repeat (apply elem_of_cons in H as [-> | H]; [reflexivity |]).
  by apply elem_of_nil in H.
Qed.

Lemma env_flag_insert (env : Env) (name value : string) :
  env_flag (<[name := value]> env) name = truthy value.
Proof. unfold env_flag. by rewrite lookup_insert_eq. Qed.

Lemma env_flag_insert_ne (env : Env) (name name' value : string) :
  name ≠ name' →
  env_flag (<[name := value]> env) name' = env_flag env name'.
Proof. intros H. unfold env_flag. by rewrite lookup_insert_ne. Qed.

End CredentialFacts.

Section AskCredentials.

Variable env : Env.
Variable config_apizh_provider : option string.
Variable config_reasoningEffort : option string.
Variable defaultMaxTokens : nat.
Variable createProvider : string → Thrown + ProviderClient.
Variable fetchDocContent : string → bool → Thrown + string.
Variable trim : string → string.

Local Abbreviation ask_execute :=
  (AskCommand.execute env config_apizh_provider config_reasoningEffort
     defaultMaxTokens createProvider fetchDocContent trim).
Local Abbreviation ask_providerName :=
  (AskCommand.providerName config_apizh_provider).

(** X25.  When a known provider [p] is not available while some other
    provider is, [AskCommand] asks the user to set the variable named by
    [p] in upper case followed by [_API_KEY].  For the eight base
    providers that is the variable the resolver reads: setting it makes
    [p] available.  For an [apizh-*] variant it is not: setting it leaves
    [p] as unavailable as before, and the variable that does make it
    available is [APIZH_API_KEY]. *)
Theorem ask_hint_variable (query : string) (options : option CommandOptions)
    (p : Provider) (value : string) :
  p ∈ KNOWN_PROVIDERS →
  truthy value = true →
  (ask_providerName options = p →
   isProviderAvailable env p = false →
   getAvailableProviders env ≠ [] →
   ask_execute query options =
     Throw (ProviderError
       ("The " ++ p ++ " provider is not available. Please set "
          ++ toUpperCase p ++ "_API_KEY in your environment." ++ NL
          ++ "Currently available providers:" ++ NL
          ++ AskCommand.providerLines (getAvailableProviders env))
       JsUndefined)) ∧
  (String.prefix "apizh-" p = false →
   isProviderAvailable (<[toUpperCase p ++ "_API_KEY" := value]> env) p
     = true) ∧
  (String.prefix "apizh-" p = true →
   isProviderAvailable (<[toUpperCase p ++ "_API_KEY" := value]> env) p
     = isProviderAvailable env p ∧
   isProviderAvailable (<["APIZH_API_KEY" := value]> env) p = true).
Proof.
  intros Hp Hv. split_and!.
  - intros Hname Hun Hsome. unfold AskCommand.execute. rewrite Hname.
    destruct (Nat.eqb_spec
      (length (List.filter (fun p => available p) (getAllProviders env))) 0)
      as [Hlen | _].
    { exfalso. apply Hsome. apply length_zero_iff_nil, Hlen. }
    destruct (known_provider_info env p Hp) as (m & Hinfo & _).
    unfold getProviderInfo in Hinfo. rewrite Hinfo, Hun.
    cbn [available negb]. reflexivity.
  - intros Hpre. rewrite (available_by_credential _ p Hp).
    unfold KNOWN_PROVIDERS in Hp.
    repeat (apply elem_of_cons in Hp as [-> | Hp];
      [ first [ discriminate Hpre
              | eval_names; rewrite <- Hv; apply env_flag_insert ] |]).
    by apply elem_of_nil in Hp.
  - intros Hpre. rewrite !(available_by_credential _ p Hp).
    unfold KNOWN_PROVIDERS in Hp.
    repeat (apply elem_of_cons in Hp as [-> | Hp];
      [ first [ discriminate Hpre
              | eval_names; split;
                [ apply env_flag_insert_ne; discriminate
                | rewrite <- Hv; apply env_flag_insert ] ] |]).
    by apply elem_of_nil in Hp.
Qed.

(** X26.  With no [provider] option and no configured provider,
    [AskCommand] uses [apizh] and nothing else: when [APIZH_API_KEY] is not
    set it throws a [ProviderError] without yielding, whichever other
    providers are available and whatever the preference list of "ask"
    would select. *)
Theorem ask_default_needs_apizh (query : string)
    (options : option CommandOptions) :
  truthy_opt (options ≫= opt_provider) = false →
  truthy_opt config_apizh_provider = false →
  env_flag env "APIZH_API_KEY" = false →
  ask_providerName options = "apizh" ∧
  ∃ msg, ask_execute query options = Throw (ProviderError msg JsUndefined).
Proof.
  intros Ho Hc Hflag.
  assert (Hname : ask_providerName options = "apizh").
  { unfold AskCommand.providerName, or_else. rewrite Ho, Hc. reflexivity. }
  split; [exact Hname |].
  apply execute_guarded. rewrite Hname. exact Hflag.
Qed.

End AskCredentials.

Lemma ask_hint_variable_witness :
  isProviderAvailable
    (<[toUpperCase "apizh-cost" ++ "_API_KEY" := "k"]> env_openai_gemini)
    "apizh-cost"
  = isProviderAvailable env_openai_gemini "apizh-cost" ∧
  isProviderAvailable (<["APIZH_API_KEY" := "k"]> env_openai_gemini)
    "apizh-cost" = true.
Proof.
  destruct (ask_hint_variable env_openai_gemini None None 100
              (fun _ => inr sample_client) sample_fetch sample_trim "hi" None
              "apizh-cost" "k") as (_ & _ & H).
  - compute_done.
  - reflexivity.
  - apply H. reflexivity.
Defined.

Lemma ask_default_needs_apizh_witness :
  AskCommand.providerName None None = "apizh" ∧
  ∃ msg,
    AskCommand.execute env_openai_gemini None None 100
      (fun _ => inr sample_client) sample_fetch sample_trim "hi" None
    = Throw (ProviderError msg JsUndefined).
Proof.
  apply (ask_default_needs_apizh env_openai_gemini None None 100
           (fun _ => inr sample_client) sample_fetch sample_trim "hi" None);
    reflexivity.
Defined.
